(** * AioP13: a shallow embedding of the Plan13 orbit predictor

    The development follows [src/AioP13.cpp] and [src/AioP13.h].

    Numeric model.  [int] and [long] are [Z] (no claim below reaches a value
    outside 16 resp. 32 bits, except where noted).  A [double] is idealised as
    an exact number: a rational ([Q], executable) in the date and time class,
    whose code uses only field operations and casts, and a real ([R]) in the
    observer, satellite and Sun classes, whose code calls [sin], [cos],
    [sqrt], [asin], [acos], [atan2] and [pow].  A cast [(long)x] or [(int)x]
    of a double truncates toward zero.  A C string is the list of its
    characters without the terminator; an access outside an array or a
    string, undefined in C, is [None]. *)

From Stdlib Require Import String Ascii DecimalString.
From Stdlib Require Import ZArith QArith Qround Qabs List Bool Lia.
From Stdlib Require Import Reals Psatz Qreals RNsatz.
Import ListNotations.

(* ================================================================== *)
(** * Part I: definitions                                              *)
(* ================================================================== *)

(** ** Casts and libm functions on rationals *)

Module CQ.
Local Open Scope Q_scope.

(** [(long)x] and [(int)x] for a double [x]: truncation toward zero. *)
Definition to_long (x : Q) : Z := Z.quot (Qnum x) (Zpos (Qden x)).

(** [(double)n] for an integer [n]. *)
Definition of_long (n : Z) : Q := inject_Z n.


End CQ.

(** ** Helper functions (AioP13.cpp, lines 87-117) *)

Module Helper.
Import CQ.
Local Open Scope Q_scope.

(** Mean year, days (AioP13.h). *)
Definition g_scdYM : Q := 365.25.

(** Convert date to day-number. *)
Definition fnday (p_iy p_im p_id : Z) : Z :=
  let '(p_im, p_iy) :=
    if (p_im <? 3)%Z then ((p_im + 12)%Z, (p_iy - 1)%Z) else (p_im, p_iy) in
  (to_long (of_long p_iy * g_scdYM)
   + to_long (of_long (p_im + 1) * 30.6)
   + (p_id - 428))%Z.

(** Convert day-number to date; valid 1900 Mar 01 - 2100 Feb 28.
    The result is [(p_iy, p_im, p_id)]. *)
Definition fndate (p_idt : Z) : Z * Z * Z :=
  let p_idt := (p_idt + 428)%Z in
  let p_iy := to_long ((of_long p_idt - 122.1) / g_scdYM) in
  let p_idt := (p_idt - to_long (of_long p_iy * g_scdYM))%Z in
  let p_im := to_long (of_long p_idt / 30.61) in
  let p_idt := (p_idt - to_long (of_long p_im * 30.6))%Z in
  let p_im := (p_im - 1)%Z in
  let '(p_im, p_iy) :=
    if (12 <? p_im)%Z then ((p_im - 12)%Z, (p_iy + 1)%Z) else (p_im, p_iy) in
  (p_iy, p_im, p_idt).

End Helper.

(** ** class P13DateTime (AioP13.cpp, lines 172-249) *)

Module P13DateTime.
Import CQ Helper.
Local Open Scope Q_scope.

Record t : Type := mk { c_lDN : Z; c_dTN : Q }.

(** The default constructor. *)
Definition new : t := {| c_lDN := 0; c_dTN := 0 |}.

Definition add (dt : t) (p_ddays : Q) : t :=
  let tn := c_dTN dt + p_ddays in
  let dn := (c_lDN dt + to_long tn)%Z in
  let tn := tn - of_long (to_long tn) in
  {| c_lDN := dn; c_dTN := tn |}.

Definition settime (p_iyear p_imonth p_iday p_ih p_im p_is : Z) : t :=
  {| c_lDN := fnday p_iyear p_imonth p_iday;
     c_dTN := (of_long p_ih + of_long p_im / 60 + of_long p_is / 3600) / 24 |}.

(** The six reference parameters become the result
    [(year, month, day, h, m, s)]. *)
Definition gettime (dt : t) : Z * Z * Z * Z * Z * Z :=
  let '(p_iyear, p_imonth, p_iday) := fndate (c_lDN dt) in
  let l_dtime := c_dTN dt in
  let l_dtime := l_dtime * 24 in
  let p_ih := to_long l_dtime in
  let l_dtime := l_dtime - of_long p_ih in
  let l_dtime := l_dtime * 60 in
  let p_im := to_long l_dtime in
  let l_dtime := l_dtime - of_long p_im in
  let l_dtime := l_dtime * 60 in
  let p_is := to_long l_dtime in
  (p_iyear, p_imonth, p_iday, p_ih, p_im, p_is).


(** The instant a timestamp stands for, in days. *)
Definition instant (dt : t) : Q := of_long (c_lDN dt) + c_dTN dt.

(** The data-model invariant of the fractional day. *)
Definition normalized (dt : t) : Prop := 0 <= c_dTN dt /\ c_dTN dt < 1.

End P13DateTime.

(** ** Calendar dates, as the claims about the time model speak of them *)

Module Calendar.
Local Open Scope Z_scope.

Definition leap (y : Z) : bool :=
  (y mod 4 =? 0) && (negb (y mod 100 =? 0) || (y mod 400 =? 0)).

Definition days_in_month (y m : Z) : Z :=
  if m =? 2 then (if leap y then 29 else 28)
  else if (m =? 4) || (m =? 6) || (m =? 9) || (m =? 11) then 30
  else 31.

Definition valid_date (y m d : Z) : bool :=
  (1 <=? m) && (m <=? 12) && (1 <=? d) && (d <=? days_in_month y m).

(** Lexicographic order on (year, month, day). *)
Definition date_leb (y1 m1 d1 y2 m2 d2 : Z) : bool :=
  (y1 <? y2) || ((y1 =? y2) && ((m1 <? m2) || ((m1 =? m2) && (d1 <=? d2)))).

(** 1900-03-01 .. 2100-02-28, the validity window of [fnday]/[fndate]. *)
Definition in_window (y m d : Z) : bool :=
  date_leb 1900 3 1 y m d && date_leb y m d 2100 2 28.

End Calendar.

(** ** Boolean checks over ranges of dates, for proofs by computation *)

Module Checks.
Import CQ Helper Calendar.
Local Open Scope Z_scope.

(** The integers [lo], [lo+1], ..., [lo+n-1]. *)
Definition zrange (lo : Z) (n : nat) : list Z :=
  map (fun i => lo + Z.of_nat i) (seq 0 n).



(** The check of one day number: [fndate] gives a calendar date of the
    window that [fnday] maps back. *)
Definition daynum_ok (n : Z) : bool :=
  let '(y, m, d) := fndate n in
  valid_date y m d && in_window y m d && (fnday y m d =? n).

(** The calendar day after a date. *)
Definition next_day (y m d : Z) : Z * Z * Z :=
  if d <? days_in_month y m then (y, m, d + 1)
  else if m <? 12 then (y, m + 1, 1)
  else (y + 1, 1, 1).

(** The check of one date: the day after it has the next day number. *)
Definition next_ok (y m d : Z) : bool :=
  let '(y', m', d') := next_day y m d in
  implb (valid_date y m d && in_window y m d && in_window y' m' d')
        (fnday y' m' d' =? fnday y m d + 1).

Local Open Scope Q_scope.

(** The hour, minute and second that [gettime] reads off a fraction. *)
Definition hms (tn : Q) : Z * Z * Z :=
  let l_dtime := tn * 24 in
  let p_ih := to_long l_dtime in
  let l_dtime := (l_dtime - of_long p_ih) * 60 in
  let p_im := to_long l_dtime in
  let l_dtime := (l_dtime - of_long p_im) * 60 in
  (p_ih, p_im, to_long l_dtime).

End Checks.

(** ** Casts, Arduino macros and libm functions on reals *)

Module CR.
Local Open Scope R_scope.

(** [(long)x] and [(int)x] for a double [x]: truncation toward zero
    ([Int_part] is the floor). *)
Definition to_long (x : R) : Z :=
  if Rle_dec 0 x then Int_part x else (- Int_part (- x))%Z.

(** [(double)n] for an integer [n]. *)
Definition of_long (n : Z) : R := IZR n.

(** Arduino.h: [degrees(rad)] is [rad * RAD_TO_DEG] and [radians(deg)] is
    [deg * DEG_TO_RAD]. *)
Definition degrees (rad : R) : R := rad * (180 / PI).
Definition radians (deg : R) : R := deg * (PI / 180).

Definition fabs (x : R) : R := Rabs x.

(** libm's [atan2 y x]: the angle of the point [(x, y)], in (-PI, PI]. *)
Definition atan2 (y x : R) : R :=
  if Rlt_dec 0 x then atan (y / x)
  else if Rlt_dec x 0 then
    (if Rle_dec 0 y then atan (y / x) + PI else atan (y / x) - PI)
  else if Rlt_dec 0 y then PI / 2
  else if Rlt_dec y 0 then - (PI / 2)
  else 0.

(** libm's [pow x y], for the positive bases the code raises. *)
Definition pow (x y : R) : R := Rpower x y.

(** [typedef double Vec3[3]]. *)
Record Vec3 : Type := vec { v0 : R; v1 : R; v2 : R }.

Definition dot (a b : Vec3) : R :=
  v0 a * v0 b + v1 a * v1 b + v2 a * v2 b.



Definition norm2 (v : Vec3) : R := v0 v * v0 v + v1 v * v1 v + v2 v * v2 v.
Definition norm (v : Vec3) : R := sqrt (norm2 v).

End CR.

(** ** Constants (AioP13.h, lines 89-113) *)

Module Const.
Import CR.
Local Open Scope R_scope.

Definition g_scdRE : R := 6378.137.
Definition g_scdFL : R := 1.0 / 298.257224.
Definition g_scdRP : R := g_scdRE * (1.0 - g_scdFL).

Definition g_scdGM : R := 3.986E5.
Definition g_scdJ2 : R := 1.08263E-3.

Definition g_scdYT : R := 365.2421896698.
Definition g_scdWW : R := 2.0 * PI / g_scdYT.
Definition g_scdWE : R := 2.0 * PI + g_scdWW.
Definition g_scdW0 : R := g_scdWE / 86400.0.

Definition g_scdYG : R := 2014.0.
Definition g_scdG0 : R := 99.5828.
Definition g_scdMAS0 : R := 356.4105.
Definition g_scdMASD : R := 0.98560028.
Definition g_scdINS : R := radians 23.4375.
Definition g_scdCNS : R := cos g_scdINS.
Definition g_scdSNS : R := sin g_scdINS.
Definition g_scdEQC1 : R := 0.03340.
Definition g_scdEQC2 : R := 0.00035.

Definition g_scdAU : R := 149.597870700E6.

End Const.

(** ** latlon2xy (AioP13.cpp, lines 156-161) *)

Module Map.
Import CR.
Local Open Scope R_scope.

(** The two reference parameters become the result [(p_ix, p_iy)]. *)
Definition latlon2xy (p_dlat p_dlon : R) (p_ciMapMaxX p_ciMapMaxY : Z)
  : Z * Z :=
  (to_long (((180.0 + p_dlon) / 360.0) * of_long p_ciMapMaxX),
   to_long (((90.0 - p_dlat) / 180.0) * of_long p_ciMapMaxY)).

(** A pixel of the map, its border row and column included. *)
Definition in_map (W H : Z) (p : Z * Z) : Prop :=
  (0 <= fst p <= W)%Z /\ (0 <= snd p <= H)%Z.

End Map.

(** ** class P13Observer (AioP13.cpp, lines 262-302) *)

Module P13Observer.
Import CR Const.
Local Open Scope R_scope.

Record t : Type := mk {
  c_dLA : R; c_dLO : R; c_dHT : R;
  c_vecU : Vec3; c_vecE : Vec3; c_vecN : Vec3; c_vecO : Vec3; c_vecV : Vec3
}.

(** The constructor, from latitude and longitude in degrees and altitude
    above sea level in metres. *)
Definition new (p_dlat p_dlon p_dasl : R) : t :=
  let c_dLA := radians p_dlat in
  let c_dLO := radians p_dlon in
  let c_dHT := p_dasl / 1000.0 in
  let l_dCL := cos c_dLA in
  let l_dSL := sin c_dLA in
  let l_dCO := cos c_dLO in
  let l_dSO := sin c_dLO in
  let c_vecU := vec (l_dCL * l_dCO) (l_dCL * l_dSO) l_dSL in
  let c_vecE := vec (- l_dSO) l_dCO 0.0 in
  let c_vecN := vec (- l_dSL * l_dCO) (- l_dSL * l_dSO) l_dCL in
  let l_dD := sqrt (g_scdRE * g_scdRE * l_dCL * l_dCL
                    + g_scdRP * g_scdRP * l_dSL * l_dSL) in
  let l_dRx := (g_scdRE * g_scdRE) / l_dD + c_dHT in
  let l_dRz := (g_scdRP * g_scdRP) / l_dD + c_dHT in
  let c_vecO := vec (l_dRx * v0 c_vecU) (l_dRx * v1 c_vecU)
                    (l_dRz * v2 c_vecU) in
  let c_vecV := vec (- v1 c_vecO * g_scdW0) (v0 c_vecO * g_scdW0) 0.0 in
  mk c_dLA c_dLO c_dHT c_vecU c_vecE c_vecN c_vecO c_vecV.

End P13Observer.

(** ** Footprint circle, the loop shared by the two footprint methods
       (AioP13.cpp, lines 553-577 and 727-752, the same text twice) *)

Module Footprint.
Import CR Map.
Local Open Scope R_scope.

(** [p_aipoints[i] = v]; a write outside the caller's array is undefined
    behaviour in C and [None] here. *)
Fixpoint store (p_aipoints : list (Z * Z)) (i : nat) (v : Z * Z)
  : option (list (Z * Z)) :=
  match p_aipoints, i with
  | [], _ => None
  | _ :: rest, O => Some (v :: rest)
  | p :: rest, S i' =>
      match store rest i' v with
      | Some rest' => Some (p :: rest')
      | None => None
      end
  end.

(** Angle around the circle. *)
Definition angle (l_ii p_inumberofpoints : Z) : R :=
  2.0 * PI * of_long l_ii / of_long p_inumberofpoints.

(** One pass of the loop body, from the angle [l_da] to the pixel. *)
Definition point (l_dsra l_dcra l_dcla l_dsla l_dclo l_dslo : R)
    (p_ciMapMaxX p_ciMapMaxY : Z) (l_da : R) : Z * Z :=
  let l_dXfp := l_dcra in
  let l_dYfp := l_dsra * sin l_da in
  let l_dZfp := l_dsra * cos l_da in
  let l_dx := l_dXfp * l_dcla - l_dZfp * l_dsla in
  let l_dy := l_dYfp in
  let l_dz := l_dXfp * l_dsla + l_dZfp * l_dcla in
  let l_dXfp := l_dx * l_dclo - l_dy * l_dslo in
  let l_dYfp := l_dx * l_dslo + l_dy * l_dclo in
  let l_dZfp := l_dz in
  latlon2xy (degrees (asin l_dZfp)) (degrees (atan2 l_dYfp l_dXfp))
            p_ciMapMaxX p_ciMapMaxY.

(** [for (l_ii = ...; l_ii < p_inumberofpoints; l_ii++)], with [n] the
    number of passes still to run. *)
Fixpoint loop (n : nat) (l_ii : Z) (pt : R -> Z * Z)
    (p_inumberofpoints : Z) (p_aipoints : list (Z * Z))
  : option (list (Z * Z)) :=
  match n with
  | O => Some p_aipoints
  | S n' =>
      match store p_aipoints (Z.to_nat l_ii)
                  (pt (angle l_ii p_inumberofpoints)) with
      | Some arr => loop n' (l_ii + 1)%Z pt p_inumberofpoints arr
      | None => None
      end
  end.

(** Everything after the assignment of [l_dsrad]. *)
Definition circle (l_dsrad : R) (p_aipoints : list (Z * Z))
    (p_inumberofpoints p_ciMapMaxX p_ciMapMaxY : Z) (p_dlat p_dlon : R)
  : option (list (Z * Z)) :=
  let l_dsra := sin l_dsrad in
  let l_dcra := cos l_dsrad in
  let l_dcla := cos (radians p_dlat) in
  let l_dsla := sin (radians p_dlat) in
  let l_dclo := cos (radians p_dlon) in
  let l_dslo := sin (radians p_dlon) in
  loop (Z.to_nat p_inumberofpoints) 0%Z
       (point l_dsra l_dcra l_dcla l_dsla l_dclo l_dslo
              p_ciMapMaxX p_ciMapMaxY)
       p_inumberofpoints p_aipoints.



End Footprint.

(** ** Look angles, the text shared by the two elaz methods
       (AioP13.cpp, lines 506-528 and 678-700, the same text twice) *)

Module Look.
Import CR.
Local Open Scope R_scope.

(** Range magnitude, unit range vector and its up, east and north
    components. *)
Record locals : Type := mk_locals {
  l_dr : R; l_vecR : Vec3; l_du : R; l_de : R; l_dn : R
}.

Definition components (l_vecR : Vec3) (p_obs : P13Observer.t) : locals :=
  let l_dr := sqrt (v0 l_vecR * v0 l_vecR + v1 l_vecR * v1 l_vecR
                    + v2 l_vecR * v2 l_vecR) in
  let l_vecR := vec (v0 l_vecR / l_dr) (v1 l_vecR / l_dr)
                    (v2 l_vecR / l_dr) in
  let U := P13Observer.c_vecU p_obs in
  let E := P13Observer.c_vecE p_obs in
  let N := P13Observer.c_vecN p_obs in
  let l_du := v0 l_vecR * v0 U + v1 l_vecR * v1 U + v2 l_vecR * v2 U in
  let l_de := v0 l_vecR * v0 E + v1 l_vecR * v1 E in
  let l_dn := v0 l_vecR * v0 N + v1 l_vecR * v1 N + v2 l_vecR * v2 N in
  mk_locals l_dr l_vecR l_du l_de l_dn.

(** Azimuth. *)
Definition azimuth (l : locals) : R :=
  let p_daz := degrees (atan2 (l_de l) (l_dn l)) in
  if Rlt_dec p_daz 0.0 then p_daz + 360.0 else p_daz.

(** Elevation. *)
Definition elevation (l : locals) : R := degrees (asin (l_du l)).

End Look.

(** ** class P13Satellite (AioP13.cpp, lines 317-600) *)

Module P13Satellite.
Import CR Const.
Local Open Scope R_scope.

(** The numbers [getlong] and [getdouble] ([atol] and [strtod] on fixed
    columns) hand to [tle], in the order of the calls. *)
Record tle_fields : Type := mk_fields {
  f_N : Z;      (* l1: 2..6   catalog number *)
  f_YE : Z;     (* l1:18..19  epoch year, two digits *)
  f_TE : R;     (* l1:20..31  epoch day of year and fraction *)
  f_M2 : R;     (* l1:33..42  first derivative of mean motion / 2 *)
  f_IN : R;     (* l2: 8..15  inclination, degrees *)
  f_RA : R;     (* l2:17..24  R.A.A.N., degrees *)
  f_EC : R;     (* l2:26..32  eccentricity, seven digits *)
  f_WP : R;     (* l2:34..41  argument of perigee, degrees *)
  f_MA : R;     (* l2:43..50  mean anomaly, degrees *)
  f_MM : R;     (* l2:52..62  mean motion, rev/day *)
  f_RV : Z      (* l2:63..67  revolution number at epoch *)
}.

(** The private members set by [tle]. *)
Record elements : Type := mk_elements {
  cp_lN : Z; cp_lYE : Z; cp_dTE : R; cp_dIN : R; cp_dRA : R; cp_dEC : R;
  cp_dWP : R; cp_dMA : R; cp_dMM : R; cp_dM2 : R; cp_dRV : R; cp_lDE : Z;
  cp_dN0 : R; cp_dA_0 : R; cp_dB_0 : R; cp_dPC : R;
  cp_dQD : R; cp_dWD : R; cp_dDC : R
}.

(** The members written by [predict] and [elaz]. *)
Record state : Type := mk_state {
  c_vecSAT : Vec3; c_vecVEL : Vec3;   (* celestial coordinates *)
  c_vecS : Vec3; c_vecV : Vec3;       (* geocentric coordinates *)
  cp_dRS : R;                         (* radius of satellite orbit *)
  cp_dRR : R                          (* range rate *)
}.

Definition tle (f : tle_fields) : elements :=
  let cp_lN := f_N f in
  let cp_lYE := f_YE f in
  let cp_lYE := if (cp_lYE <? 58)%Z then (cp_lYE + 2000)%Z
                else (cp_lYE + 1900)%Z in
  let cp_dTE := f_TE f in
  let cp_dM2 := 2.0 * PI * f_M2 f in
  let cp_dIN := radians (f_IN f) in
  let cp_dRA := radians (f_RA f) in
  let cp_dEC := f_EC f / 1.0E7 in
  let cp_dWP := radians (f_WP f) in
  let cp_dMA := radians (f_MA f) in
  let cp_dMM := 2.0 * PI * f_MM f in
  let cp_dRV := of_long (f_RV f) in
  let cp_lDE := (Helper.fnday cp_lYE 1 0 + to_long cp_dTE)%Z in
  let cp_dTE := cp_dTE - of_long (to_long cp_dTE) in
  let cp_dN0 := cp_dMM / 86400.0 in
  let cp_dA_0 := pow (g_scdGM / (cp_dN0 * cp_dN0)) (1.0 / 3.0) in
  let cp_dB_0 := cp_dA_0 * sqrt (1.0 - cp_dEC * cp_dEC) in
  let cp_dPC := g_scdRE * cp_dA_0 / (cp_dB_0 * cp_dB_0) in
  let cp_dPC := 1.5 * g_scdJ2 * cp_dPC * cp_dPC * cp_dMM in
  let l_dCI := cos cp_dIN in
  let cp_dQD := - cp_dPC * l_dCI in
  let cp_dWD := cp_dPC * (5.0 * l_dCI * l_dCI - 1.0) / 2.0 in
  let cp_dDC := - 2.0 * cp_dM2 / (3.0 * cp_dMM) in
  mk_elements cp_lN cp_lYE cp_dTE cp_dIN cp_dRA cp_dEC cp_dWP cp_dMA cp_dMM
              cp_dM2 cp_dRV cp_lDE cp_dN0 cp_dA_0 cp_dB_0 cp_dPC
              cp_dQD cp_dWD cp_dDC.

(** *** predict, lines 394-409: elapsed time, drag terms, mean anomaly *)

Record anomaly : Type := mk_anomaly {
  l_dGHAE : R; l_dT : R; l_dDT : R; l_dKD : R; l_dKDP : R;
  l_dM : R; l_dDR : R; l_dRN : R
}.

Definition predict_anomaly (e : elements) (p_dt : P13DateTime.t) : anomaly :=
  let l_lDN := P13DateTime.c_lDN p_dt in
  let l_dTN := Q2R (P13DateTime.c_dTN p_dt) in
  let l_dGHAE := radians g_scdG0
    + (of_long (cp_lDE e - Helper.fnday (to_long g_scdYG) 1 0) + cp_dTE e)
      * g_scdWE in
  let l_dT := of_long (l_lDN - cp_lDE e) + (l_dTN - cp_dTE e) in
  let l_dDT := cp_dDC e * l_dT / 2.0 in
  let l_dKD := 1.0 + 4.0 * l_dDT in
  let l_dKDP := 1.0 - 7.0 * l_dDT in
  let l_dM := cp_dMA e + cp_dMM e * l_dT * (1.0 - 3.0 * l_dDT) in
  let l_dDR := of_long (to_long (l_dM / (2.0 * PI))) in
  let l_dM := l_dM - l_dDR * 2.0 * PI in
  let l_dRN := cp_dRV e + l_dDR in
  mk_anomaly l_dGHAE l_dT l_dDT l_dKD l_dKDP l_dM l_dDR l_dRN.

(** *** predict, lines 411-422: Newton's method for Kepler's equation *)

(** The locals as the [do ... while] leaves them. *)
Record kepler : Type := mk_kepler {
  l_dEA : R; l_dC_EA : R; l_dS_EA : R; l_dDNOM : R; l_dD : R
}.

(** The source loop has no bound; [fuel] counts the passes the model may
    run, and [None] says they did not suffice. *)
Fixpoint kepler_loop (fuel : nat) (cp_dEC l_dM l_dEA : R) : option kepler :=
  match fuel with
  | O => None
  | S fuel' =>
      let l_dC_EA := cos l_dEA in
      let l_dS_EA := sin l_dEA in
      let l_dDNOM := 1.0 - cp_dEC * l_dC_EA in
      let l_dD := (l_dEA - cp_dEC * l_dS_EA - l_dM) / l_dDNOM in
      let l_dEA := l_dEA - l_dD in
      if Rgt_dec (fabs l_dD) 1.0E-5
      then kepler_loop fuel' cp_dEC l_dM l_dEA
      else Some (mk_kepler l_dEA l_dC_EA l_dS_EA l_dDNOM l_dD)
  end.

(** *** predict, lines 424-483: distances, plane, celestial and
        geocentric vectors *)

Definition predict_vectors (e : elements) (a : anomaly) (k : kepler)
    (old : state) : state :=
  let l_dT := l_dT a in
  let l_dKD := l_dKD a in
  let l_dKDP := l_dKDP a in
  let l_dC_EA := l_dC_EA k in
  let l_dS_EA := l_dS_EA k in
  let l_dDNOM := l_dDNOM k in
  let l_dA := cp_dA_0 e * l_dKD in
  let l_dB := cp_dB_0 e * l_dKD in
  let cp_dRS := l_dA * l_dDNOM in
  let S0 := l_dA * (l_dC_EA - cp_dEC e) in
  let S1 := l_dB * l_dS_EA in
  let V0 := - l_dA * l_dS_EA / l_dDNOM * cp_dN0 e in
  let V1 := l_dB * l_dC_EA / l_dDNOM * cp_dN0 e in
  let l_dAP := cp_dWP e + cp_dWD e * l_dT * l_dKDP in
  let l_dCW := cos l_dAP in
  let l_dSW := sin l_dAP in
  let l_dRAAN := cp_dRA e + cp_dQD e * l_dT * l_dKDP in
  let l_dCQ := cos l_dRAAN in
  let l_dSQ := sin l_dRAAN in
  let l_dCI := cos (cp_dIN e) in
  let l_dSI := sin (cp_dIN e) in
  let l_vecCX := vec (l_dCW * l_dCQ - l_dSW * l_dCI * l_dSQ)
                     (- l_dSW * l_dCQ - l_dCW * l_dCI * l_dSQ)
                     (l_dSI * l_dSQ) in
  let l_vecCY := vec (l_dCW * l_dSQ + l_dSW * l_dCI * l_dCQ)
                     (- l_dSW * l_dSQ + l_dCW * l_dCI * l_dCQ)
                     (- l_dSI * l_dCQ) in
  let l_vecCZ := vec (l_dSW * l_dSI) (l_dCW * l_dSI) l_dCI in
  let c_vecSAT := vec (S0 * v0 l_vecCX + S1 * v1 l_vecCX)
                      (S0 * v0 l_vecCY + S1 * v1 l_vecCY)
                      (S0 * v0 l_vecCZ + S1 * v1 l_vecCZ) in
  let c_vecVEL := vec (V0 * v0 l_vecCX + V1 * v1 l_vecCX)
                      (V0 * v0 l_vecCY + V1 * v1 l_vecCY)
                      (V0 * v0 l_vecCZ + V1 * v1 l_vecCZ) in
  let l_dGHAA := l_dGHAE a + g_scdWE * l_dT in
  let l_dCG := cos (- l_dGHAA) in
  let l_dSG := sin (- l_dGHAA) in
  let c_vecS := vec (v0 c_vecSAT * l_dCG - v1 c_vecSAT * l_dSG)
                    (v0 c_vecSAT * l_dSG + v1 c_vecSAT * l_dCG)
                    (v2 c_vecSAT) in
  let c_vecV := vec (v0 c_vecVEL * l_dCG - v1 c_vecVEL * l_dSG)
                    (v0 c_vecVEL * l_dSG + v1 c_vecVEL * l_dCG)
                    (v2 c_vecVEL) in
  mk_state c_vecSAT c_vecVEL c_vecS c_vecV cp_dRS (cp_dRR old).

(** *** predict, whole *)

Definition predict (fuel : nat) (e : elements) (old : state)
    (p_dt : P13DateTime.t) : option state :=
  let a := predict_anomaly e p_dt in
  match kepler_loop fuel (cp_dEC e) (l_dM a) (l_dM a) with
  | Some k => Some (predict_vectors e a k old)
  | None => None
  end.

(** The two reference parameters become the result [(p_dlat, p_dlon)]. *)
Definition latlon (s : state) : R * R :=
  (degrees (asin (v2 (c_vecS s) / cp_dRS s)),
   degrees (atan2 (v1 (c_vecS s)) (v0 (c_vecS s)))).

(** Rangevec = Satvec - Obsvec. *)
Definition range_vec (s : state) (p_obs : P13Observer.t) : Vec3 :=
  let O := P13Observer.c_vecO p_obs in
  vec (v0 (c_vecS s) - v0 O) (v1 (c_vecS s) - v1 O) (v2 (c_vecS s) - v2 O).

(** The two reference parameters and the object, whose range rate is
    written, become the result [(p_del, p_daz, s')]. *)
Definition elaz (s : state) (p_obs : P13Observer.t) : R * R * state :=
  let l := Look.components (range_vec s p_obs) p_obs in
  let l_vecR := Look.l_vecR l in
  let p_daz := Look.azimuth l in
  let p_del := Look.elevation l in
  let OV := P13Observer.c_vecV p_obs in
  let cp_dRR := (v0 (c_vecV s) - v0 OV) * v0 l_vecR
                + (v1 (c_vecV s) - v1 OV) * v1 l_vecR
                + v2 (c_vecV s) * v2 l_vecR in
  (p_del, p_daz,
   mk_state (c_vecSAT s) (c_vecVEL s) (c_vecS s) (c_vecV s) (cp_dRS s) cp_dRR).

(** The array [p_aipoints] is the caller's; the result is the array after
    the call, or [None] when a write falls outside it. *)
Definition footprint (s : state) (p_aipoints : list (Z * Z))
    (p_inumberofpoints p_ciMapMaxX p_ciMapMaxY : Z)
    (p_dsatlat p_dsatlon : R) : option (list (Z * Z)) :=
  let l_dsrad := acos (g_scdRE / cp_dRS s) in
  Footprint.circle l_dsrad p_aipoints p_inumberofpoints
                   p_ciMapMaxX p_ciMapMaxY p_dsatlat p_dsatlon.

(** [#define P13_FRX 0], [#define P13_FTX 1]. *)
Definition P13_FRX : bool := false.
Definition P13_FTX : bool := true.

(** Dopplershift in MHz. *)
Definition dopplershift (s : state) (p_dfreqMHz : R) : R :=
  - p_dfreqMHz * cp_dRR s / 299792.0.

Definition doppler (s : state) (p_dfreqMHz : R) (p_bodir : bool) : R :=
  let l_ddopplershift := dopplershift s p_dfreqMHz in
  if p_bodir then p_dfreqMHz - l_ddopplershift
  else p_dfreqMHz + l_ddopplershift.

End P13Satellite.

(** ** class P13Sun (AioP13.cpp, lines 611-754) *)

Module P13Sun.
Import CR Const.
Local Open Scope R_scope.

Record state : Type := mk_state { c_vecSUN : Vec3; c_vecH : Vec3 }.

Definition predict (p_dt : P13DateTime.t) : state :=
  let l_lDN := P13DateTime.c_lDN p_dt in
  let l_dTN := Q2R (P13DateTime.c_dTN p_dt) in
  let l_dT := of_long (l_lDN - Helper.fnday (to_long g_scdYG) 1 0) + l_dTN in
  let l_dGHAE := radians g_scdG0 + l_dT * g_scdWE in
  let l_dMRSE := radians g_scdG0 + l_dT * g_scdWW + PI in
  let l_dMASE := radians (g_scdMAS0 + l_dT * g_scdMASD) in
  let l_dTAS := l_dMRSE + g_scdEQC1 * sin l_dMASE
                + g_scdEQC2 * sin (2.0 * l_dMASE) in
  let l_dC := cos l_dTAS in
  let l_dS := sin l_dTAS in
  let c_vecSUN := vec l_dC (l_dS * g_scdCNS) (l_dS * g_scdSNS) in
  let l_dC := cos (- l_dGHAE) in
  let l_dS := sin (- l_dGHAE) in
  let c_vecH := vec (v0 c_vecSUN * l_dC - v1 c_vecSUN * l_dS)
                    (v0 c_vecSUN * l_dS + v1 c_vecSUN * l_dC)
                    (v2 c_vecSUN) in
  mk_state c_vecSUN c_vecH.

Definition latlon (s : state) : R * R :=
  (degrees (asin (v2 (c_vecH s))),
   degrees (atan2 (v1 (c_vecH s)) (v0 (c_vecH s)))).

(** Rangevec = Satvec - Obsvec. *)
Definition range_vec (s : state) (p_obs : P13Observer.t) : Vec3 :=
  let O := P13Observer.c_vecO p_obs in
  vec (v0 (c_vecH s) * g_scdAU - v0 O) (v1 (c_vecH s) * g_scdAU - v1 O)
      (v2 (c_vecH s) * g_scdAU - v2 O).

(** The result is [(p_del, p_daz)]. *)
Definition elaz (s : state) (p_obs : P13Observer.t) : R * R :=
  let l := Look.components (range_vec s p_obs) p_obs in
  let p_daz := Look.azimuth l in
  let p_del := Look.elevation l in
  (p_del, p_daz).

Definition footprint (p_aipoints : list (Z * Z))
    (p_inumberofpoints p_ciMapMaxX p_ciMapMaxY : Z)
    (p_dsunlat p_dsunlon : R) : option (list (Z * Z)) :=
  let l_dsrad := acos (g_scdRE / g_scdAU) in
  Footprint.circle l_dsrad p_aipoints p_inumberofpoints
                   p_ciMapMaxX p_ciMapMaxY p_dsunlat p_dsunlon.

End P13Sun.

(** ** libc: the conversions of sprintf that [ascii] uses, and atol *)

Module Libc.
Local Open Scope Z_scope.
Local Open Scope string_scope.

(** The digits of a non-negative number, most significant first. *)
Definition decimal (n : Z) : string :=
  NilZero.string_of_uint (N.to_uint (Z.abs_N n)).

Fixpoint fill (c : ascii) (n : nat) : string :=
  match n with
  | O => EmptyString
  | S n' => String c (fill c n')
  end.

(** [%<width>d]: sign and digits, right-justified with spaces. *)
Definition fmt_d (width : nat) (n : Z) : string :=
  let body := (if (n <? 0)%Z then "-" else "") ++ decimal n in
  fill " " (width - String.length body) ++ body.

(** [%0<width>d]: the sign first, then zeros up to the width, then the
    digits. *)
Definition fmt_0d (width : nat) (n : Z) : string :=
  let sign := if (n <? 0)%Z then "-" else "" in
  let digits := decimal n in
  sign ++ fill "0" (width - String.length sign - String.length digits)
       ++ digits.

(** [isspace] and [isdigit] in the C locale. *)
Definition isspace (c : ascii) : bool :=
  let n := nat_of_ascii c in
  (n =? 32)%nat || ((9 <=? n)%nat && (n <=? 13)%nat).

Definition isdigit (c : ascii) : bool :=
  let n := nat_of_ascii c in (48 <=? n)%nat && (n <=? 57)%nat.

Definition digit_value (c : ascii) : Z := Z.of_nat (nat_of_ascii c) - 48.

Fixpoint skip_spaces (s : list ascii) : list ascii :=
  match s with
  | c :: r => if isspace c then skip_spaces r else s
  | [] => []
  end.

(** The digits at the head of [s], accumulated onto [acc]. *)
Fixpoint digits (s : list ascii) (acc : Z) : Z :=
  match s with
  | c :: r => if isdigit c then digits r (10 * acc + digit_value c) else acc
  | [] => acc
  end.

(** [atol]: white space, an optional sign, then digits up to the first
    other character (the terminator included); 0 when there is no digit.
    [long] being [Z], no value is out of range. *)
Definition atol (s : list ascii) : Z :=
  match skip_spaces s with
  | "-"%char :: r => - digits r 0
  | "+"%char :: r => digits r 0
  | r => digits r 0
  end.

End Libc.

(** ** getlong (AioP13.cpp, lines 139-151) and P13DateTime::ascii
       (lines 229-237) *)

Module Text.
Import Libc.
Local Open Scope Z_scope.

(** [p_ccc[i]] for a string given by its characters: the characters, then
    the terminator; an index beyond it is outside the string. *)
Definition char_at (p_ccc : list ascii) (i : Z) : option ascii :=
  if i <? 0 then None
  else if i <? Z.of_nat (length p_ccc)
       then Some (nth (Z.to_nat i) p_ccc zero)
       else if i =? Z.of_nat (length p_ccc) then Some zero
            else None.

(** The copy loop of [getlong], with [n] the number of passes still to
    run: [l_acbuf[l_ii] = p_ccc[p_ii0 + l_ii]].  The buffer is kept as the
    list of the characters written so far; it has 20 cells, and a write
    at index 20 or a read outside the string is [None]. *)
Fixpoint copy (n : nat) (l_ii : Z) (p_ccc : list ascii) (p_ii0 : Z)
    (l_acbuf : list ascii) : option (list ascii * Z) :=
  match n with
  | O => Some (l_acbuf, l_ii)
  | S n' =>
      match char_at p_ccc (p_ii0 + l_ii) with
      | Some c =>
          if l_ii <? 20
          then copy n' (l_ii + 1) p_ccc p_ii0 (l_acbuf ++ [c])
          else None
      | None => None
      end
  end.

(** Cut characters from c with start i0 to i1-1, append string delimiter
    and convert to long. *)
Definition getlong (p_ccc : list ascii) (p_ii0 p_ii1 : Z) : option Z :=
  match copy (Z.to_nat (p_ii1 - p_ii0)) 0 p_ccc p_ii0 [] with
  | Some (l_acbuf, l_ii) =>
      if l_ii <? 20 then Some (atol (l_acbuf ++ [zero])) else None
  | None => None
  end.

Local Open Scope string_scope.

(** [const static uint8_t ascii_str_len = 19] (AioP13.h). *)
Definition ascii_str_len : nat := 19.

(** The decimal digit [n] as a character, and numbers written with two
    and with four digits. *)
Definition digit_char (n : Z) : ascii := ascii_of_nat (48 + Z.to_nat n).

Definition two_digits (n : Z) : string :=
  String (digit_char (n / 10)) (String (digit_char (n mod 10)) "").

Definition four_digits (n : Z) : string :=
  String (digit_char (n / 1000))
    (String (digit_char (n / 100 mod 10)) (two_digits (n mod 100))).

(** YYYY-MM-DD HH:MM:SS. *)
Definition iso (y mo d h mi s : Z) : string :=
  four_digits y ++ "-" ++ two_digits mo ++ "-" ++ two_digits d ++ " "
    ++ two_digits h ++ ":" ++ two_digits mi ++ ":" ++ two_digits s.

(** The buffer [p_cbuf] becomes the result; it must hold the length of
    the result and the terminator. *)
Definition ascii (dt : P13DateTime.t) : string :=
  let '(l_iyear, l_imon, l_iday, l_ih, l_im, l_is) :=
    P13DateTime.gettime dt in
  fmt_d 4 l_iyear ++ "-" ++ fmt_0d 2 l_imon ++ "-" ++ fmt_0d 2 l_iday
    ++ " " ++ fmt_0d 2 l_ih ++ ":" ++ fmt_0d 2 l_im ++ ":" ++ fmt_0d 2 l_is.

End Text.

(** ** Element sets and timestamps used as concrete inputs *)

Module Examples.
Import CR.
Local Open Scope R_scope.

(** A circular orbit of two revolutions a day, no decay, epoch 2014 day
    1.0 (2014-01-01 00:00:00), revolution 100 at epoch. *)
Definition two_revs : P13Satellite.tle_fields :=
  P13Satellite.mk_fields 0 14 1.0 0 0 0 0 0 0 2 100.

(** 2013-12-31 21:00:00, three hours before that epoch. *)
Definition before_epoch : P13DateTime.t :=
  P13DateTime.settime 2013 12 31 21 0 0.

(** A circular orbit of sixteen revolutions a day that decays fast (first
    derivative of the mean motion over two: 0.01), same epoch. *)
Definition decaying : P13Satellite.tle_fields :=
  P13Satellite.mk_fields 0 14 1.0 0.01 0 0 0 0 0 16 100.

(** 2020-07-28 00:00:00, 2400 days after that epoch. *)
Definition long_after : P13DateTime.t :=
  P13DateTime.settime 2020 7 28 0 0 0.

(** The epoch itself, 2014-01-01 00:00:00. *)
Definition at_epoch : P13DateTime.t :=
  P13DateTime.settime 2014 1 1 0 0 0.

(** A satellite object before its first [predict]. *)
Definition fresh : P13Satellite.state :=
  P13Satellite.mk_state (vec 0 0 0) (vec 0 0 0) (vec 0 0 0) (vec 0 0 0) 0 0.

(** A state with range rate [r], everything else at rest. *)
Definition at_rate (r : R) : P13Satellite.state :=
  P13Satellite.mk_state (vec 0 0 0) (vec 0 0 0) (vec 0 0 0) (vec 0 0 0) 0 r.

(** A satellite 7000 km from the centre of the Earth, over the pole. *)
Definition over_pole : P13Satellite.state :=
  P13Satellite.mk_state (vec 0 0 7000) (vec 0 0 0) (vec 0 0 7000)
                        (vec 0 0 0) 7000 0.



End Examples.

(* ================================================================== *)
(** * Part II: theorems                                                *)
(* ================================================================== *)

(** ** The cast on rationals *)

Module CQFacts.
Import CQ.
Local Open Scope Q_scope.

Lemma to_long_floor (x : Q) : 0 <= x -> to_long x = Qfloor x.
Proof.
  destruct x as [n d]; unfold to_long, Qfloor, Qle; simpl.
  rewrite Z.mul_1_r; intros Hn.
  apply Z.quot_div_nonneg; lia.
Qed.

Lemma to_long_opp (x : Q) : to_long (- x) = (- to_long x)%Z.
Proof.
  destruct x as [n d]; unfold to_long; simpl.
  apply Z.quot_opp_l; lia.
Qed.



Lemma to_long_bounds_nonneg (x : Q) :
  0 <= x -> of_long (to_long x) <= x /\ x < of_long (to_long x) + 1.
Proof.
  intros Hx; rewrite (to_long_floor x Hx); unfold of_long; split.
  - apply Qfloor_le.
  - rewrite <- (inject_Z_plus _ 1). apply Qlt_floor.
Qed.

(** On a negative double the cast rounds up, toward zero. *)
Lemma to_long_bounds_neg (x : Q) :
  x < 0 -> of_long (to_long x) - 1 < x /\ x <= of_long (to_long x).
Proof.
  intros Hx.
  assert (Hn : 0 <= - x) by lra.
  destruct (to_long_bounds_nonneg (- x) Hn) as [Hlo Hhi].
  rewrite to_long_opp in Hlo, Hhi; unfold of_long in *.
  rewrite (inject_Z_opp (to_long x)) in Hlo, Hhi.
  lra.
Qed.


End CQFacts.

(** ** The time model *)

Module TimeFacts.
Import CQ CQFacts Helper P13DateTime Calendar Checks.
Local Open Scope Q_scope.

(** *** add and roundup *)

(** Whatever the sign of the offset, [add] moves the instant by it. *)
Lemma add_instant (dt : t) (p_ddays : Q) :
  instant (add dt p_ddays) == instant dt + p_ddays.
Proof.
  unfold instant, add, of_long; simpl.
  rewrite inject_Z_plus. ring.
Qed.

(** When the sum of fraction and offset is not negative the cast is a
    floor and the fraction comes back into [0,1). *)
Lemma add_normalized (dt : t) (p_ddays : Q) :
  0 <= c_dTN dt + p_ddays -> normalized (add dt p_ddays).
Proof.
  intros H; unfold normalized, add; simpl.
  destruct (to_long_bounds_nonneg _ H) as [Hlo Hhi]. lra.
Qed.

(** When the sum is negative the cast rounds toward zero and the fraction
    stays negative or zero. *)
Lemma add_below_zero (dt : t) (p_ddays : Q) :
  c_dTN dt + p_ddays < 0 ->
  -1 < c_dTN (add dt p_ddays) /\ c_dTN (add dt p_ddays) <= 0.
Proof.
  intros H; unfold add; simpl.
  destruct (to_long_bounds_neg _ H) as [Hlo Hhi]. lra.
Qed.




(** *** fnday and fndate *)

Local Open Scope Z_scope.

Lemma zrange_forallb (lo : Z) (n : nat) (P : Z -> bool) :
  forallb P (zrange lo n) = true ->
  forall z, lo <= z < lo + Z.of_nat n -> P z = true.
Proof.
  intros H z Hz.
  rewrite forallb_forall in H; apply H.
  unfold zrange; apply in_map_iff.
  exists (Z.to_nat (z - lo)); split; [lia|].
  apply in_seq; lia.
Qed.


Lemma implb_true (a b : bool) : implb a b = true -> a = true -> b = true.
Proof. intros H Ha; rewrite Ha in H; exact H. Qed.



(** *** The time of day *)

Local Open Scope Q_scope.

Lemma gettime_split (dt : t) :
  gettime dt =
  let '(y, m, d) := fndate (c_lDN dt) in
  let '(h, mi, s) := hms (c_dTN dt) in (y, m, d, h, mi, s).
Proof.
  unfold gettime, hms. destruct (fndate (c_lDN dt)) as [[y m] d].
  reflexivity.
Qed.



(** *** The claims about the time model *)



(** C3, at a negative offset.  Half a day subtracted from 2020-01-01
    06:00:00: the fraction 1/4 is normalized, the sum -1/4 is cast to 0,
    the day number stays and the fraction becomes -1/4, outside [0,1);
    [gettime] then reads the hour -6 on 2020-01-01, while the instant is
    2019-12-31 18:00:00. *)
Theorem C3_add_negative_offset :
  let dt := settime 2020 1 1 6 0 0 in
  normalized dt
  /\ c_lDN (add dt (- (1 # 2))) = c_lDN dt
  /\ c_dTN (add dt (- (1 # 2))) == - (1 # 4)
  /\ ~ normalized (add dt (- (1 # 2)))
  /\ gettime (add dt (- (1 # 2))) = (2020, 1, 1, -6, 0, 0)%Z
  /\ instant (add dt (- (1 # 2))) == instant (settime 2019 12 31 18 0 0).
Proof.
  cbv zeta. split; [split; vm_compute; [discriminate | reflexivity]|].
  split; [vm_compute; reflexivity|].
  split; [vm_compute; reflexivity|].
  split; [intros [H _]; vm_compute in H; apply H; reflexivity|].
  split; vm_compute; reflexivity.
Qed.

End TimeFacts.

(** ** The cast, the macros and [atan2] on reals *)

Module CRFacts.
Import CR.
Local Open Scope R_scope.

(** Decimal constants become quotients of integers, for [field]. *)
Ltac decimals := unfold Q2R; cbn [Qnum Qden].

Lemma to_long_unique_nonneg (x : R) (z : Z) :
  0 <= x -> IZR z <= x -> x < IZR z + 1 -> to_long x = z.
Proof.
  intros Hx Hlo Hhi; unfold to_long.
  destruct (Rle_dec 0 x) as [_|n]; [|contradiction].
  symmetry; apply Int_part_spec; lra.
Qed.

Lemma to_long_unique_neg (x : R) (z : Z) :
  x < 0 -> IZR z - 1 < x -> x <= IZR z -> to_long x = z.
Proof.
  intros Hx Hlo Hhi; unfold to_long.
  destruct (Rle_dec 0 x) as [H|_]; [lra|].
  assert (E : (- z)%Z = Int_part (- x)).
  { apply Int_part_spec; rewrite opp_IZR; lra. }
  rewrite <- E; lia.
Qed.

Lemma to_long_IZR (z : Z) : to_long (IZR z) = z.
Proof.
  destruct (Rle_dec 0 (IZR z)) as [H|H].
  - apply to_long_unique_nonneg; lra.
  - apply to_long_unique_neg; lra.
Qed.

(** Half of an integer, cast: C's integer division by two. *)
Lemma to_long_half (n : Z) : to_long (IZR n / 2) = Z.quot n 2.
Proof.
  pose proof (Z.quot_rem' n 2) as E.
  assert (En : IZR n = 2 * IZR (Z.quot n 2) + IZR (Z.rem n 2)).
  { rewrite E at 1. rewrite plus_IZR, mult_IZR. reflexivity. }
  destruct (Z_le_gt_dec 0 n) as [Hn|Hn].
  - pose proof (Z.rem_bound_pos n 2 Hn ltac:(lia)) as [H0 H1].
    apply IZR_le in H0. assert (H2 : IZR (Z.rem n 2) <= 1).
    { apply IZR_le; lia. }
    assert (0 <= IZR n) by (apply IZR_le; lia).
    clear E; apply to_long_unique_nonneg; lra.
  - assert (Hn' : (n <= 0)%Z) by lia.
    pose proof (Z.rem_bound_pos_neg n 2 ltac:(lia) ltac:(lia)) as [H0 H1].
    apply IZR_le in H1. assert (H2 : -1 <= IZR (Z.rem n 2)).
    { apply IZR_le; lia. }
    assert (IZR n < 0) by (apply IZR_lt; lia).
    clear E; apply to_long_unique_neg; lra.
Qed.

Lemma atan_nonpos (x : R) : x <= 0 -> atan x <= 0.
Proof.
  intros [H| ->]; [|rewrite atan_0; lra].
  apply atan_increasing in H; rewrite atan_0 in H; lra.
Qed.

Lemma atan_pos (x : R) : 0 < x -> 0 < atan x.
Proof.
  intros H; apply atan_increasing in H; rewrite atan_0 in H; lra.
Qed.

(** The range of [atan2]. *)
Lemma atan2_bounds (y x : R) : - PI < atan2 y x <= PI.
Proof.
  pose proof PI_RGT_0 as Hpi; unfold atan2.
  destruct (Rlt_dec 0 x) as [Hx|Hx].
  { pose proof (atan_bound (y / x)); lra. }
  destruct (Rlt_dec x 0) as [Hx'|Hx'].
  - pose proof (atan_bound (y / x)) as Hb.
    assert (Hi : / x < 0) by now apply Rinv_lt_0_compat.
    destruct (Rle_dec 0 y) as [Hy|Hy].
    + assert (y / x <= 0) by (unfold Rdiv; nra).
      pose proof (atan_nonpos _ H); lra.
    + assert (0 < y / x) by (unfold Rdiv; nra).
      pose proof (atan_pos _ H); lra.
  - destruct (Rlt_dec 0 y); [lra|].
    destruct (Rlt_dec y 0); lra.
Qed.

Lemma degrees_le (a b : R) : a <= b -> degrees a <= degrees b.
Proof.
  pose proof PI_RGT_0 as Hpi; intros H; unfold degrees.
  apply Rmult_le_compat_r; [|exact H].
  apply Rlt_le, Rdiv_lt_0_compat; lra.
Qed.

Lemma degrees_lt (a b : R) : a < b -> degrees a < degrees b.
Proof.
  pose proof PI_RGT_0 as Hpi; intros H; unfold degrees.
  apply Rmult_lt_compat_r; [|exact H].
  apply Rdiv_lt_0_compat; lra.
Qed.

Lemma degrees_PI : degrees PI = 180.
Proof. pose proof PI_RGT_0; unfold degrees; field; lra. Qed.


Lemma degrees_opp (a : R) : degrees (- a) = - degrees a.
Proof. unfold degrees; ring. Qed.

End CRFacts.

(** ** Map projection *)

Module MapFacts.
Import CR CRFacts Map.
Local Open Scope R_scope.

(** C10.  For every map width W and height H, [latlon2xy] sends latitude 0,
    longitude 0 to the pixel (W/2, H/2), the quotients being C's integer
    division (the cast truncates), and latitude 90, longitude -180 to the
    pixel (0, 0); the pixel of any point is the cast of
    (180+lon)/360 * width and of (90-lat)/180 * height. *)
Theorem C10_latlon2xy_reference_points (W H : Z) :
  latlon2xy 0 0 W H = (Z.quot W 2, Z.quot H 2)
  /\ latlon2xy 90 (-180) W H = (0%Z, 0%Z)
  /\ (forall lat lon : R,
        latlon2xy lat lon W H
        = (to_long ((180 + lon) / 360 * IZR W),
           to_long ((90 - lat) / 180 * IZR H))).
Proof.
  unfold latlon2xy, of_long; repeat split.
  - f_equal.
    + replace ((180.0 + 0) / 360.0 * IZR W) with (IZR W / 2) by lra.
      apply to_long_half.
    + replace ((90.0 - 0) / 180.0 * IZR H) with (IZR H / 2) by lra.
      apply to_long_half.
  - f_equal.
    + replace ((180.0 + -180) / 360.0 * IZR W) with (IZR 0) by lra.
      apply to_long_IZR.
    + replace ((90.0 - 90) / 180.0 * IZR H) with (IZR 0) by lra.
      apply to_long_IZR.
  - intros lat lon; f_equal; f_equal; lra.
Qed.

End MapFacts.

(** ** Doppler shift *)

Module DopplerFacts.
Import CR P13Satellite.
Local Open Scope R_scope.

(** C6.  For every frequency f and cached range rate r the shift is
    -f*r/299792; the TX result is f minus the shift and the RX result f
    plus the shift, so the two displacements from f are equal and opposite;
    for r = 0 both results are f, and for nonzero r (and nonzero f) the two
    results lie strictly on opposite sides of f. *)
Theorem C6_doppler_symmetry (s : state) (f : R) :
  dopplershift s f = - f * cp_dRR s / 299792
  /\ doppler s f P13_FTX = f - dopplershift s f
  /\ doppler s f P13_FRX = f + dopplershift s f
  /\ doppler s f P13_FTX - f = - (doppler s f P13_FRX - f)
  /\ (cp_dRR s = 0 -> doppler s f P13_FTX = f /\ doppler s f P13_FRX = f)
  /\ (cp_dRR s <> 0 -> f <> 0 ->
      (doppler s f P13_FTX - f) * (doppler s f P13_FRX - f) < 0).
Proof.
  unfold doppler, dopplershift, P13_FTX, P13_FRX.
  split; [lra|]. split; [reflexivity|]. split; [reflexivity|].
  split; [lra|]. split.
  - intros Hr; rewrite Hr; split; lra.
  - intros Hr Hf.
    assert (Hs : - f * cp_dRR s / 299792.0 <> 0).
    { intros E. assert (E' : f * cp_dRR s = 0) by lra.
      apply Rmult_integral in E'; tauto. }
    set (x := - f * cp_dRR s / 299792.0) in *.
    replace ((f - x - f) * (f + x - f)) with (- (x * x)) by ring.
    assert (0 < x * x) by nra. lra.
Qed.

(** The claim at 145.8 MHz, at rest and receding at 1 km/s. *)
Lemma C6_doppler_symmetry_witness :
  (doppler (Examples.at_rate 0) 145.8 P13_FTX = 145.8
   /\ doppler (Examples.at_rate 0) 145.8 P13_FRX = 145.8)
  /\ (doppler (Examples.at_rate 1) 145.8 P13_FTX - 145.8)
     * (doppler (Examples.at_rate 1) 145.8 P13_FRX - 145.8) < 0.
Proof.
  split.
  - destruct (C6_doppler_symmetry (Examples.at_rate 0) 145.8)
      as (_ & _ & _ & _ & H & _).
    apply H; reflexivity.
  - destruct (C6_doppler_symmetry (Examples.at_rate 1) 145.8)
      as (_ & _ & _ & _ & _ & H).
    apply H; simpl; lra.
Defined.

End DopplerFacts.

(** ** Look angles *)

Module LookFacts.
Import CR CRFacts Const.
Local Open Scope R_scope.





Lemma norm2_nonneg (v : Vec3) : 0 <= norm2 v.
Proof. unfold norm2; nra. Qed.

Lemma norm2_pos (v : Vec3) : v <> vec 0 0 0 -> 0 < norm2 v.
Proof.
  intros Hv; destruct v as [a b c]; unfold norm2; simpl.
  destruct (Req_dec a 0) as [Ha|Ha]; [|nra].
  destruct (Req_dec b 0) as [Hb|Hb]; [|nra].
  destruct (Req_dec c 0) as [Hc|Hc]; [|nra].
  subst; contradiction Hv; reflexivity.
Qed.

(** Cauchy-Schwarz, through Lagrange's identity. *)
Lemma dot_square_le (a b c u v w : R) :
  (a * u + b * v + c * w) * (a * u + b * v + c * w)
  <= (a * a + b * b + c * c) * (u * u + v * v + w * w).
Proof.
  assert (E : (a * a + b * b + c * c) * (u * u + v * v + w * w)
              - (a * u + b * v + c * w) * (a * u + b * v + c * w)
              = (a * v - b * u) * (a * v - b * u)
                + (a * w - c * u) * (a * w - c * u)
                + (b * w - c * v) * (b * w - c * v)) by ring.
  pose proof (Rle_0_sqr (a * v - b * u)) as H1.
  pose proof (Rle_0_sqr (a * w - c * u)) as H2.
  pose proof (Rle_0_sqr (b * w - c * v)) as H3.
  unfold Rsqr in H1, H2, H3. lra.
Qed.




Lemma sin_radians_0 : sin (radians 0) = 0.
Proof. unfold radians; rewrite Rmult_0_l; apply sin_0. Qed.


End LookFacts.

(** ** Kepler's equation *)

Module KeplerFacts.
Import CR CRFacts P13Satellite.
Local Open Scope R_scope.

(** When the loop leaves, the last correction is at most 1.0E-5 in
    magnitude, and the sine, cosine and denominator it leaves behind are
    those of the anomaly before that correction. *)
Lemma kepler_loop_exit (fuel : nat) (ec M EA : R) (k : kepler) :
  kepler_loop fuel ec M EA = Some k ->
  fabs (l_dD k) <= 1.0E-5
  /\ l_dC_EA k = cos (l_dEA k + l_dD k)
  /\ l_dS_EA k = sin (l_dEA k + l_dD k)
  /\ l_dDNOM k = 1 - ec * cos (l_dEA k + l_dD k).
Proof.
  revert EA; induction fuel as [|fuel IH]; intros EA; simpl; [discriminate|].
  destruct (Rgt_dec _ _) as [Hgt|Hle].
  - apply IH.
  - intros E; injection E as <-; simpl.
    replace (EA - (EA - ec * sin EA - M) / (1.0 - ec * cos EA)
             + (EA - ec * sin EA - M) / (1.0 - ec * cos EA)) with EA by ring.
    repeat split; try reflexivity; lra.
Qed.

(** More passes never change a result already reached. *)
Lemma kepler_loop_more (fuel : nat) (ec M EA : R) (k : kepler) :
  kepler_loop fuel ec M EA = Some k ->
  kepler_loop (S fuel) ec M EA = Some k.
Proof.
  revert EA; induction fuel as [|fuel IH]; intros EA; [discriminate|].
  intros H. cbn [kepler_loop] in H |- *.
  destruct (Rgt_dec _ _) as [Hgt|Hle]; [|exact H].
  apply IH in H. exact H.
Qed.

(** With eccentricity 0 the first correction vanishes. *)
Lemma kepler_loop_circular (M : R) (fuel : nat) :
  kepler_loop (S fuel) 0 M M = Some (mk_kepler M (cos M) (sin M) 1 0).
Proof.
  cbn [kepler_loop].
  assert (ED : (M - 0 * sin M - M) / (1.0 - 0 * cos M) = 0).
  { unfold Rdiv; replace (M - 0 * sin M - M) with 0 by ring; ring. }
  rewrite ED.
  destruct (Rgt_dec (fabs 0) 1.0E-5) as [Hgt|_].
  - unfold fabs in Hgt; rewrite Rabs_R0 in Hgt; lra.
  - f_equal; f_equal; lra.
Qed.

(** C7.  For eccentricity exactly 0 and any mean anomaly M the loop started
    at M leaves after its first pass, whatever the number of passes allowed:
    the first correction is 0 and the eccentric anomaly it returns is M
    itself. *)
Theorem C7_kepler_circular (M : R) (fuel : nat) :
  exists k : kepler,
    kepler_loop (S fuel) 0 M M = Some k /\ l_dD k = 0 /\ l_dEA k = M.
Proof.
  exists (mk_kepler M (cos M) (sin M) 1 0).
  split; [apply kepler_loop_circular | split; reflexivity].
Qed.

End KeplerFacts.

(** ** Mean anomaly and orbit number *)

Module AnomalyFacts.
Import CR CRFacts Const P13Satellite Examples.
Local Open Scope R_scope.

Lemma cast_bounds_nonneg (x : R) :
  0 <= x -> IZR (to_long x) <= x /\ x < IZR (to_long x) + 1.
Proof.
  intros Hx; unfold to_long.
  destruct (Rle_dec 0 x) as [_|n]; [|contradiction].
  destruct (base_Int_part x); lra.
Qed.

Lemma cast_bounds_neg (x : R) :
  x < 0 -> IZR (to_long x) - 1 < x /\ x <= IZR (to_long x).
Proof.
  intros Hx; unfold to_long.
  destruct (Rle_dec 0 x) as [H|_]; [lra|].
  destruct (base_Int_part (- x)); rewrite opp_IZR; lra.
Qed.

(** Stripping whole revolutions from a non-negative angle leaves it in
    [0, 2 PI). *)
Lemma strip_revs_nonneg (m : R) :
  0 <= m ->
  0 <= m - of_long (to_long (m / (2.0 * PI))) * 2.0 * PI < 2 * PI.
Proof.
  pose proof PI_RGT_0 as Hpi; intros Hm; unfold of_long.
  assert (Hq : 0 <= m / (2.0 * PI)).
  { apply Rmult_le_pos; [exact Hm|]. apply Rlt_le, Rinv_0_lt_compat; lra. }
  destruct (cast_bounds_nonneg _ Hq) as [Hlo Hhi].
  assert (E : m = m / (2.0 * PI) * (2 * PI)) by (decimals; field; lra).
  set (q := m / (2.0 * PI)) in *; set (n := IZR (to_long q)) in *.
  clearbody q n. nra.
Qed.

(** Stripping them from a negative angle leaves it in (-2 PI, 0]: the cast
    rounds toward zero. *)
Lemma strip_revs_neg (m : R) :
  m < 0 ->
  - (2 * PI) < m - of_long (to_long (m / (2.0 * PI))) * 2.0 * PI <= 0.
Proof.
  pose proof PI_RGT_0 as Hpi; intros Hm; unfold of_long.
  assert (Hq : m / (2.0 * PI) < 0).
  { assert (0 < / (2.0 * PI)) by (apply Rinv_0_lt_compat; lra).
    unfold Rdiv; nra. }
  destruct (cast_bounds_neg _ Hq) as [Hlo Hhi].
  assert (E : m = m / (2.0 * PI) * (2 * PI)) by (decimals; field; lra).
  set (q := m / (2.0 * PI)) in *; set (n := IZR (to_long q)) in *.
  clearbody q n. nra.
Qed.

End AnomalyFacts.

(** ** The reduction of the mean anomaly before the epoch *)

Module BeforeEpoch.
Import CR CRFacts Const P13Satellite Examples.
Local Open Scope R_scope.

Ltac eval_fields :=
  cbn -[Helper.fnday to_long PI Rmult Rplus Rminus Rdiv Ropp Rinv IZR Q2R
        cos sin sqrt pow radians].

Lemma to_long_one : to_long 1.0 = 1%Z.
Proof. replace 1.0 with (IZR 1) by lra. apply to_long_IZR. Qed.

Lemma fnday_2014_1_0 : Helper.fnday 2014 1 0 = 735248%Z.
Proof. vm_compute. reflexivity. Qed.

Lemma two_revs_elements :
  let e := tle two_revs in
  cp_lDE e = 735249%Z /\ cp_dTE e = 0 /\ cp_dMA e = 0 /\ cp_dMM e = 4 * PI
  /\ cp_dDC e = 0 /\ cp_dRV e = 100 /\ cp_dEC e = 0.
Proof.
  pose proof PI_RGT_0 as Hpi.
  unfold tle, two_revs; eval_fields.
  rewrite to_long_one, fnday_2014_1_0; unfold radians, of_long.
  repeat split; try lra; try reflexivity.
Qed.

Lemma before_epoch_DN : P13DateTime.c_lDN before_epoch = 735248%Z.
Proof. vm_compute. reflexivity. Qed.

Lemma before_epoch_TN : Q2R (P13DateTime.c_dTN before_epoch) = 7 / 8.
Proof.
  rewrite (Qeq_eqR _ (7 # 8)) by (vm_compute; reflexivity).
  unfold Q2R; cbn [Qnum Qden]; lra.
Qed.

(** C4, at a timestamp before the epoch.  The element set [two_revs] (two
    revolutions a day, mean anomaly 0 and revolution 100 at the epoch
    2014-01-01 00:00:00) propagated to 2013-12-31 21:00:00: the elapsed time
    is -1/8 day and the mean anomaly -PI/2; the cast strips 0 revolutions,
    the mean anomaly stays at -PI/2, below the range [0, 2 PI), and the
    orbit number stays at 100. *)
Theorem C4_mean_anomaly_before_epoch :
  let a := predict_anomaly (tle two_revs) before_epoch in
  l_dT a = - (1 / 8) /\ l_dDR a = 0 /\ l_dM a = - (PI / 2)
  /\ ~ (0 <= l_dM a < 2 * PI) /\ l_dRN a = 100.
Proof.
  pose proof PI_RGT_0 as Hpi.
  destruct two_revs_elements as (HDE & HTE & HMA & HMM & HDC & HRV & _).
  cbv zeta in HDE, HTE, HMA, HMM, HDC, HRV |- *.
  unfold predict_anomaly; cbn [l_dT l_dDR l_dM l_dRN].
  rewrite HDE, HTE, HMA, HMM, HDC, HRV, before_epoch_DN, before_epoch_TN.
  unfold of_long; change (735248 - 735249)%Z with (-1)%Z.
  replace (-1 + (7 / 8 - 0)) with (- (1 / 8)) by lra.
  replace (0 + 4 * PI * - (1 / 8) * (1.0 - 3.0 * (0 * - (1 / 8) / 2.0)))
    with (- (PI / 2)) by lra.
  assert (EQ : to_long (- (PI / 2) / (2.0 * PI)) = 0%Z).
  { replace (- (PI / 2) / (2.0 * PI)) with (- (1 / 4))
      by (decimals; field; lra).
    apply to_long_unique_neg; lra. }
  rewrite EQ.
  repeat split; lra.
Qed.

End BeforeEpoch.

(** ** The position vectors that predict leaves *)

Module PredictFacts.
Import CR CRFacts Const P13Satellite Examples.
Local Open Scope R_scope.

Lemma trig_one (x : R) : cos x * cos x + sin x * sin x = 1.
Proof. pose proof (sin2_cos2 x) as H; unfold Rsqr in H; lra. Qed.

(** The matrix [CX, CY, CZ] maps the plane vector (x, y, 0) to a vector of
    the same length. *)
Lemma plane_to_celestial_norm2 (CW SW CQ SQ CI SI x y : R) :
  CW * CW + SW * SW = 1 -> CQ * CQ + SQ * SQ = 1 -> CI * CI + SI * SI = 1 ->
  (x * (CW * CQ - SW * CI * SQ) + y * (- SW * CQ - CW * CI * SQ))
  * (x * (CW * CQ - SW * CI * SQ) + y * (- SW * CQ - CW * CI * SQ))
  + (x * (CW * SQ + SW * CI * CQ) + y * (- SW * SQ + CW * CI * CQ))
    * (x * (CW * SQ + SW * CI * CQ) + y * (- SW * SQ + CW * CI * CQ))
  + (x * (SW * SI) + y * (CW * SI)) * (x * (SW * SI) + y * (CW * SI))
  = x * x + y * y.
Proof. intros HW HQ HI. nsatz. Qed.

(** So does the rotation about the polar axis. *)
Lemma celestial_to_geocentric_norm2 (CG SG a b c : R) :
  CG * CG + SG * SG = 1 ->
  (a * CG - b * SG) * (a * CG - b * SG)
  + (a * SG + b * CG) * (a * SG + b * CG) + c * c
  = a * a + b * b + c * c.
Proof. intros HG. nsatz. Qed.

(** The ellipse: distance from the focus. *)
Lemma ellipse_radius2 (A B ec C S : R) :
  B * B = A * A * (1 - ec * ec) -> C * C + S * S = 1 ->
  (A * (C - ec)) * (A * (C - ec)) + (B * S) * (B * S)
  = (A * (1 - ec * C)) * (A * (1 - ec * C)).
Proof. intros HB HT. nsatz. Qed.

(** What [tle] guarantees of the two semi-axes. *)
Lemma tle_semi_axes (f : tle_fields) :
  0 <= cp_dEC (tle f) < 1 ->
  0 < cp_dA_0 (tle f)
  /\ cp_dB_0 (tle f) * cp_dB_0 (tle f)
     = cp_dA_0 (tle f) * cp_dA_0 (tle f)
       * (1 - cp_dEC (tle f) * cp_dEC (tle f)).
Proof.
  unfold tle; cbn [cp_dEC cp_dA_0 cp_dB_0]; intros [He0 He1].
  set (ec := f_EC f / 1.0E7) in *.
  split; [unfold pow, Rpower; apply exp_pos|].
  set (A := pow _ _).
  assert (Hs : sqrt (1.0 - ec * ec) * sqrt (1.0 - ec * ec) = 1 - ec * ec).
  { replace (1.0 - ec * ec) with (1 - ec * ec) by lra.
    apply sqrt_sqrt; nra. }
  replace (A * sqrt (1.0 - ec * ec) * (A * sqrt (1.0 - ec * ec)))
    with (A * A * (sqrt (1.0 - ec * ec) * sqrt (1.0 - ec * ec))) by ring.
  rewrite Hs; reflexivity.
Qed.

(** The square of the length of both position vectors is the square of
    the cached radius, whatever anomaly the loop stopped at. *)
Lemma predict_vectors_norm2 (e : elements) (a : anomaly) (k : kepler)
    (old : state) :
  cp_dB_0 e * cp_dB_0 e
  = cp_dA_0 e * cp_dA_0 e * (1 - cp_dEC e * cp_dEC e) ->
  l_dC_EA k * l_dC_EA k + l_dS_EA k * l_dS_EA k = 1 ->
  l_dDNOM k = 1 - cp_dEC e * l_dC_EA k ->
  norm2 (c_vecSAT (predict_vectors e a k old))
  = cp_dRS (predict_vectors e a k old) * cp_dRS (predict_vectors e a k old)
  /\ norm2 (c_vecS (predict_vectors e a k old))
     = cp_dRS (predict_vectors e a k old)
       * cp_dRS (predict_vectors e a k old).
Proof.
  intros HB HT HD.
  unfold predict_vectors, norm2; cbn [c_vecSAT c_vecS cp_dRS v0 v1 v2].
  rewrite celestial_to_geocentric_norm2 by apply trig_one.
  rewrite plane_to_celestial_norm2 by apply trig_one.
  rewrite HD.
  split.
  - rewrite (ellipse_radius2 (cp_dA_0 e * l_dKD a) (cp_dB_0 e * l_dKD a)
               (cp_dEC e) (l_dC_EA k) (l_dS_EA k)).
    + reflexivity.
    + nsatz.
    + exact HT.
  - rewrite (ellipse_radius2 (cp_dA_0 e * l_dKD a) (cp_dB_0 e * l_dKD a)
               (cp_dEC e) (l_dC_EA k) (l_dS_EA k)).
    + reflexivity.
    + nsatz.
    + exact HT.
Qed.

Lemma ratio_range (z r : R) : z * z <= r * r -> r <> 0 -> -1 <= z / r <= 1.
Proof.
  intros Hz Hr.
  destruct (Rdichotomy _ _ Hr) as [Hneg|Hpos].
  - assert (Hb : r <= z <= - r) by nra.
    assert (Hi : / r < 0) by now apply Rinv_lt_0_compat.
    unfold Rdiv; split.
    + replace (-1) with (- r * / r) by (field; lra). nra.
    + replace 1 with (r * / r) by (field; lra). nra.
  - assert (Hb : - r <= z <= r) by nra.
    assert (Hi : 0 < / r) by now apply Rinv_0_lt_compat.
    unfold Rdiv; split.
    + replace (-1) with (- r * / r) by (field; lra). nra.
    + replace 1 with (r * / r) by (field; lra). nra.
Qed.

Lemma norm_of_square (v : Vec3) (r : R) : norm2 v = r * r -> norm v = Rabs r.
Proof.
  intros H; unfold norm; rewrite H.
  apply sqrt_Rsqr_abs.
Qed.

(** The denominator of the Newton step is positive below eccentricity 1. *)
Lemma denominator_positive (ec x : R) : 0 <= ec < 1 -> 0 < 1 - ec * cos x.
Proof. intros He; pose proof (COS_bound x) as [Hlo Hhi]; nra. Qed.

(** What [predict] returns is [predict_vectors] at the locals the loop
    left. *)
Lemma predict_inv (fuel : nat) (e : elements) (old : state)
    (p_dt : P13DateTime.t) (s : state) :
  predict fuel e old p_dt = Some s ->
  exists k : kepler,
    kepler_loop fuel (cp_dEC e) (l_dM (predict_anomaly e p_dt))
                (l_dM (predict_anomaly e p_dt)) = Some k
    /\ s = predict_vectors e (predict_anomaly e p_dt) k old.
Proof.
  unfold predict; cbv zeta.
  destruct (kepler_loop _ _ _ _) as [k|]; [|discriminate].
  intros E; injection E as <-; exists k; split; reflexivity.
Qed.

(** On a circular orbit one pass suffices. *)
Lemma predict_circular (fuel : nat) (e : elements) (old : state)
    (p_dt : P13DateTime.t) :
  cp_dEC e = 0 ->
  exists s : state, predict (S fuel) e old p_dt = Some s.
Proof.
  intros He; unfold predict; cbv zeta; rewrite He.
  rewrite KeplerFacts.kepler_loop_circular; eexists; reflexivity.
Qed.

(** The sign of the cached radius is the sign of the drag factor. *)
Lemma radius_sign (fuel : nat) (f : tle_fields) (old : state)
    (p_dt : P13DateTime.t) (s : state) :
  0 <= cp_dEC (tle f) < 1 ->
  predict fuel (tle f) old p_dt = Some s ->
  exists c : R,
    0 < c /\ cp_dRS s = c * l_dKD (predict_anomaly (tle f) p_dt).
Proof.
  intros He Hp.
  destruct (predict_inv _ _ _ _ _ Hp) as (k & Hk & ->).
  destruct (KeplerFacts.kepler_loop_exit _ _ _ _ _ Hk) as (_ & _ & _ & HD).
  destruct (tle_semi_axes f He) as [HA _].
  pose proof (denominator_positive _ (l_dEA k + l_dD k) He) as Hden.
  exists (cp_dA_0 (tle f) * l_dDNOM k); split.
  - rewrite HD; apply Rmult_lt_0_compat; assumption.
  - unfold predict_vectors; cbn [cp_dRS]; ring.
Qed.

(** The lengths of the two position vectors are the magnitude of the
    cached radius. *)
Lemma position_norm_abs (fuel : nat) (f : tle_fields) (old : state)
    (p_dt : P13DateTime.t) (s : state) :
  0 <= cp_dEC (tle f) < 1 ->
  predict fuel (tle f) old p_dt = Some s ->
  norm2 (c_vecSAT s) = cp_dRS s * cp_dRS s
  /\ norm2 (c_vecS s) = cp_dRS s * cp_dRS s.
Proof.
  intros He Hp.
  destruct (predict_inv _ _ _ _ _ Hp) as (k & Hk & ->).
  destruct (KeplerFacts.kepler_loop_exit _ _ _ _ _ Hk) as (_ & HC & HS & HD).
  destruct (tle_semi_axes f He) as [_ HB].
  apply predict_vectors_norm2.
  - exact HB.
  - rewrite HC, HS; apply trig_one.
  - rewrite HD, HC; reflexivity.
Qed.

(** C8, as the code has it.  After every call of [predict] on an element
    set of eccentricity in [0,1), the length of the celestial and of the
    geocentric position vector is the magnitude of the cached radius
    cp_dRS = a*KD*(1 - e*cos(E)), with E the anomaly at which the last pass
    of the Newton loop took sine and cosine; it is cp_dRS itself when the
    drag factor KD is not negative; and when cp_dRS is not zero the argument
    S[2]/cp_dRS that [latlon] hands to [asin] lies in [-1,1]. *)
Theorem C8_position_norm (fuel : nat) (f : tle_fields) (old : state)
    (p_dt : P13DateTime.t) (s : state) :
  0 <= cp_dEC (tle f) < 1 ->
  predict fuel (tle f) old p_dt = Some s ->
  norm (c_vecSAT s) = Rabs (cp_dRS s)
  /\ norm (c_vecS s) = Rabs (cp_dRS s)
  /\ (exists k : kepler,
        kepler_loop fuel (cp_dEC (tle f))
                    (l_dM (predict_anomaly (tle f) p_dt))
                    (l_dM (predict_anomaly (tle f) p_dt)) = Some k
        /\ cp_dRS s
           = cp_dA_0 (tle f) * l_dKD (predict_anomaly (tle f) p_dt)
             * (1 - cp_dEC (tle f) * cos (l_dEA k + l_dD k)))
  /\ (0 <= l_dKD (predict_anomaly (tle f) p_dt) ->
      norm (c_vecSAT s) = cp_dRS s /\ norm (c_vecS s) = cp_dRS s)
  /\ (cp_dRS s <> 0 -> -1 <= v2 (c_vecS s) / cp_dRS s <= 1).
Proof.
  intros He Hp.
  destruct (position_norm_abs _ _ _ _ _ He Hp) as [HSAT HS].
  pose proof (norm_of_square _ _ HSAT) as NSAT.
  pose proof (norm_of_square _ _ HS) as NS.
  split; [exact NSAT|]. split; [exact NS|]. split; [|split].
  - destruct (predict_inv _ _ _ _ _ Hp) as (k & Hk & Es).
    exists k; split; [exact Hk|].
    destruct (KeplerFacts.kepler_loop_exit _ _ _ _ _ Hk) as (_ & _ & _ & HD).
    rewrite Es; unfold predict_vectors; cbn [cp_dRS]; rewrite HD; reflexivity.
  - intros HKD.
    destruct (radius_sign _ _ _ _ _ He Hp) as (c & Hc & Ec).
    assert (Hpos : 0 <= cp_dRS s) by (rewrite Ec; nra).
    rewrite NSAT, NS, (Rabs_pos_eq _ Hpos); split; reflexivity.
  - intros Hnz; apply ratio_range; [|exact Hnz].
    rewrite <- HS; unfold norm2.
    pose proof (Rle_0_sqr (v0 (c_vecS s))) as H0.
    pose proof (Rle_0_sqr (v1 (c_vecS s))) as H1.
    unfold Rsqr in H0, H1; lra.
Qed.

Lemma two_revs_circular : cp_dEC (tle two_revs) = 0.
Proof. unfold tle, two_revs; cbn [cp_dEC f_EC]; unfold Rdiv; ring. Qed.

Lemma decaying_circular : cp_dEC (tle decaying) = 0.
Proof. unfold tle, decaying; cbn [cp_dEC f_EC]; unfold Rdiv; ring. Qed.

(** The claim at the element set [two_revs], propagated to its epoch. *)
Lemma C8_position_norm_witness :
  exists s : state,
    predict 1 (tle two_revs) fresh at_epoch = Some s
    /\ norm (c_vecS s) = Rabs (cp_dRS s).
Proof.
  destruct (predict_circular 0 (tle two_revs) fresh at_epoch
              two_revs_circular) as [s Hs].
  exists s; split; [exact Hs|].
  apply (C8_position_norm 1 two_revs fresh at_epoch s).
  - rewrite two_revs_circular; lra.
  - exact Hs.
Defined.

Lemma decaying_elements :
  let e := tle decaying in
  cp_lDE e = 735249%Z /\ cp_dTE e = 0 /\ cp_dDC e = - (1 / 2400).
Proof.
  pose proof PI_RGT_0 as Hpi.
  unfold tle, decaying; BeforeEpoch.eval_fields.
  rewrite BeforeEpoch.to_long_one, BeforeEpoch.fnday_2014_1_0; unfold of_long.
  split; [reflexivity|]. split; [lra|].
  decimals; field; lra.
Qed.

(** The drag factor of [decaying], 2400 days after its epoch. *)
Lemma decaying_drag_factor :
  l_dKD (predict_anomaly (tle decaying) long_after) = -1.
Proof.
  assert (HDN : P13DateTime.c_lDN long_after = 737649%Z)
    by (vm_compute; reflexivity).
  assert (HTN : Q2R (P13DateTime.c_dTN long_after) = 0).
  { rewrite (Qeq_eqR _ 0%Q) by (vm_compute; reflexivity).
    unfold Q2R; cbn [Qnum Qden]; lra. }
  destruct decaying_elements as (HDE & HTE & HDC).
  cbv zeta in HDE, HTE, HDC.
  unfold predict_anomaly; cbn [l_dKD]; rewrite HDN, HTN, HDE, HTE, HDC.
  unfold of_long; change (737649 - 735249)%Z with 2400%Z.
  lra.
Qed.

(** C8 as stated fails far from the epoch of a decaying orbit: for
    [decaying] propagated to 2020-07-28 the drag factor is -1, the cached
    radius is negative and the length of the position vector is not. *)
Lemma C8_norm_differs_from_radius :
  exists s : state,
    0 <= cp_dEC (tle decaying) < 1
    /\ predict 1 (tle decaying) fresh long_after = Some s
    /\ cp_dRS s < 0
    /\ norm (c_vecS s) <> cp_dRS s.
Proof.
  assert (He : 0 <= cp_dEC (tle decaying) < 1)
    by (rewrite decaying_circular; lra).
  destruct (predict_circular 0 (tle decaying) fresh long_after
              decaying_circular) as [s Hs].
  exists s; split; [exact He|]. split; [exact Hs|].
  destruct (radius_sign _ _ _ _ _ He Hs) as (c & Hc & Ec).
  rewrite decaying_drag_factor in Ec.
  assert (Hneg : cp_dRS s < 0) by lra.
  split; [exact Hneg|].
  pose proof (sqrt_pos (norm2 (c_vecS s))) as Hn; unfold norm; lra.
Qed.

End PredictFacts.

(** ** The footprint circle *)

Module FootprintFacts.
Import CR CRFacts Const Checks Footprint.
Local Open Scope R_scope.


(** A write at or beyond the end of the array is refused. *)
Lemma store_outside (arr : list (Z * Z)) (i : nat) (v : Z * Z) :
  (length arr <= i)%nat -> store arr i v = None.
Proof.
  revert i; induction arr as [|p arr IH]; intros i Hi; simpl;
    [reflexivity|].
  destruct i as [|i]; simpl in Hi; [lia|].
  rewrite IH by lia; reflexivity.
Qed.




(** A write that succeeds was inside the array and keeps its length. *)
Lemma store_length (arr arr' : list (Z * Z)) (i : nat) (v : Z * Z) :
  store arr i v = Some arr' ->
  (i < length arr)%nat /\ length arr' = length arr.
Proof.
  revert i arr'; induction arr as [|p arr IH]; intros i arr'; simpl;
    [discriminate|].
  destruct i as [|i].
  - intros E; injection E as <-; simpl; split; [lia | reflexivity].
  - destruct (store arr i v) as [r|] eqn:E; [|discriminate].
    intros E'; injection E' as <-.
    destruct (IH _ _ E) as [H1 H2]; simpl; split; lia.
Qed.

(** When the array is too short the loop runs into a write outside it. *)
Lemma loop_overruns (pt : R -> Z * Z) (N : Z) (n : nat) :
  forall (l_ii : Z) (arr : list (Z * Z)),
    (0 <= l_ii)%Z -> (Z.to_nat l_ii <= length arr)%nat ->
    (length arr < Z.to_nat l_ii + n)%nat ->
    loop n l_ii pt N arr = None.
Proof.
  induction n as [|n IH]; intros l_ii arr Hi Hle Hlen; [lia|].
  cbn [loop].
  destruct (store arr (Z.to_nat l_ii) (pt (angle l_ii N))) as [arr'|] eqn:E;
    [|reflexivity].
  destruct (store_length _ _ _ _ E) as [Hlt Hlen'].
  apply IH; [lia | rewrite Hlen'; lia | rewrite Hlen'; lia].
Qed.






End FootprintFacts.

(* ================================================================== *)
(** * Part III: further properties of the code                         *)
(* ================================================================== *)

(** ** class P13DateTime: add, roundup, gettime *)

Module TimeMore.
Import CQ CQFacts Helper P13DateTime Calendar Checks TimeFacts.
Local Open Scope Q_scope.

(** A normalized timestamp is determined by its instant. *)
Lemma normalized_unique (a b : t) :
  normalized a -> normalized b -> instant a == instant b ->
  c_lDN a = c_lDN b /\ c_dTN a == c_dTN b.
Proof.
  unfold normalized, instant, of_long; intros [Ha0 Ha1] [Hb0 Hb1] E.
  assert (H : c_lDN a = c_lDN b).
  { destruct (Z.lt_trichotomy (c_lDN a) (c_lDN b)) as [H|[H|H]];
      [exfalso | exact H | exfalso].
    - assert (H' : (c_lDN a + 1 <= c_lDN b)%Z) by lia.
      rewrite Zle_Qle, inject_Z_plus in H'.
      change (inject_Z 1) with 1 in H'. lra.
    - assert (H' : (c_lDN b + 1 <= c_lDN a)%Z) by lia.
      rewrite Zle_Qle, inject_Z_plus in H'.
      change (inject_Z 1) with 1 in H'. lra. }
  split; [exact H|]. rewrite H in E. lra.
Qed.

(** [add] of an offset that is not negative, on a normalized timestamp:
    the result is normalized and stands for the instant plus the offset. *)
Theorem add_forward (dt : t) (p_ddays : Q) :
  normalized dt -> 0 <= p_ddays ->
  normalized (add dt p_ddays)
  /\ instant (add dt p_ddays) == instant dt + p_ddays.
Proof.
  intros [H0 H1] Hd; split.
  - apply add_normalized; lra.
  - apply add_instant.
Qed.

Lemma add_forward_witness :
  normalized (add (settime 2020 1 1 6 0 0) (3 # 2)).
Proof.
  apply (add_forward (settime 2020 1 1 6 0 0) (3 # 2)).
  - split; vm_compute; [discriminate | reflexivity].
  - vm_compute; discriminate.
Defined.

(** [add] of an offset that takes the fraction below zero: the instant is
    still the old one plus the offset, but the cast rounds toward zero, so
    the fraction is left in (-1, 0] and the day number is one more than the
    floor would give unless the sum is a whole number. *)
Theorem add_backward (dt : t) (p_ddays : Q) :
  c_dTN dt + p_ddays < 0 ->
  instant (add dt p_ddays) == instant dt + p_ddays
  /\ -1 < c_dTN (add dt p_ddays) /\ c_dTN (add dt p_ddays) <= 0
  /\ (c_lDN (add dt p_ddays)
      = c_lDN dt + Qceiling (c_dTN dt + p_ddays))%Z.
Proof.
  intros H; split; [apply add_instant|].
  destruct (add_below_zero dt p_ddays H) as [Hlo Hhi].
  split; [exact Hlo|]. split; [exact Hhi|].
  unfold add; simpl; f_equal.
  unfold Qceiling.
  rewrite <- (to_long_floor (- (c_dTN dt + p_ddays))) by lra.
  rewrite to_long_opp; lia.
Qed.

Lemma add_backward_witness :
  -1 < c_dTN (add (settime 2020 1 1 6 0 0) (- (1 # 2))).
Proof.
  apply (add_backward (settime 2020 1 1 6 0 0) (- (1 # 2))).
  vm_compute; reflexivity.
Defined.



(** Adding whole days moves the day number and keeps the time of day. *)
Theorem add_whole_days (dt : t) (n : Z) :
  normalized dt -> (0 <= n)%Z ->
  c_lDN (add dt (of_long n)) = (c_lDN dt + n)%Z
  /\ c_dTN (add dt (of_long n)) == c_dTN dt.
Proof.
  intros Hn Hz.
  assert (Hq : 0 <= of_long n).
  { unfold of_long; change (inject_Z 0 <= inject_Z n);
      now rewrite <- Zle_Qle. }
  assert (Hn1 : normalized (add dt (of_long n)))
    by (apply add_normalized; destruct Hn; lra).
  apply (normalized_unique (add dt (of_long n))
           {| c_lDN := c_lDN dt + n; c_dTN := c_dTN dt |});
    [exact Hn1 | exact Hn |].
  rewrite add_instant; unfold instant, of_long; simpl.
  rewrite inject_Z_plus; ring.
Qed.

Lemma add_whole_days_witness :
  c_lDN (add (settime 2020 1 1 6 0 0) (of_long 30))
  = (c_lDN (settime 2020 1 1 6 0 0) + 30)%Z.
Proof.
  apply (add_whole_days (settime 2020 1 1 6 0 0) 30).
  - split; vm_compute; [discriminate | reflexivity].
  - lia.
Defined.







Local Open Scope Z_scope.

Lemma daynums_ok_true :
  forallb (fun a =>
    forallb (fun b =>
      implb (693670 + 1000 * a + b <=? 766718)
            (daynum_ok (693670 + 1000 * a + b)))
      (zrange 0 1000)) (zrange 0 74) = true.
Proof. vm_compute. reflexivity. Qed.

Lemma daynum_ok_holds (n : Z) :
  693670 <= n <= 766718 -> daynum_ok n = true.
Proof.
  intros Hn.
  pose proof (Z.div_mod (n - 693670) 1000 ltac:(lia)) as E.
  pose proof (Z.mod_pos_bound (n - 693670) 1000 ltac:(lia)) as Hb.
  assert (Ha : 0 <= (n - 693670) / 1000 < 0 + Z.of_nat 74).
  { split; [apply Z.div_pos; lia|].
    apply Z.div_lt_upper_bound; lia. }
  pose proof (zrange_forallb _ _ _ daynums_ok_true _ Ha) as H1.
  pose proof (zrange_forallb _ _ _ H1 ((n - 693670) mod 1000)
                ltac:(lia)) as H2.
  cbv beta in H2.
  replace (693670 + 1000 * ((n - 693670) / 1000) + (n - 693670) mod 1000)
    with n in H2 by lia.
  apply (implb_true _ _ H2). apply Z.leb_le; lia.
Qed.

(** Every day number from that of 1900-03-01 (693670) to that of
    2100-02-28 (766718) is decoded by [fndate] to a calendar date of the
    window, and [fnday] encodes that date as the same number. *)
Theorem fnday_fndate (n : Z) :
  693670 <= n <= 766718 ->
  let '(y, m, d) := fndate n in
  valid_date y m d = true /\ in_window y m d = true /\ fnday y m d = n.
Proof.
  intros Hn.
  pose proof (daynum_ok_holds n Hn) as H.
  unfold daynum_ok in H.
  destruct (fndate n) as [[y m] d].
  rewrite !andb_true_iff, Z.eqb_eq in H; tauto.
Qed.

Lemma fnday_fndate_witness :
  let '(y, m, d) := fndate 737425 in
  valid_date y m d = true /\ in_window y m d = true /\ fnday y m d = 737425.
Proof. apply (fnday_fndate 737425); lia. Defined.

Lemma next_ok_true :
  forallb (fun y =>
    forallb (fun m =>
      forallb (fun d => next_ok y m d) (zrange 1 31)) (zrange 1 12))
    (zrange 1900 201) = true.
Proof. vm_compute. reflexivity. Qed.

(** Day numbers count calendar days: inside the window the day after a
    date, across the ends of months and years and over 29 February, has
    the next day number. *)
Theorem fnday_next_day (y m d : Z) :
  valid_date y m d = true -> in_window y m d = true ->
  (let '(y', m', d') := next_day y m d in in_window y' m' d') = true ->
  let '(y', m', d') := next_day y m d in
  fnday y' m' d' = fnday y m d + 1.
Proof.
  intros Hv Hw Hw'.
  assert (Hy : 1900 <= y < 1900 + Z.of_nat 201).
  { unfold in_window, date_leb in Hw.
    rewrite !andb_true_iff, !orb_true_iff, !andb_true_iff in Hw. lia. }
  assert (Hm : 1 <= m < 1 + Z.of_nat 12).
  { unfold valid_date in Hv. rewrite !andb_true_iff in Hv. lia. }
  assert (Hd : 1 <= d < 1 + Z.of_nat 31).
  { unfold valid_date, days_in_month in Hv. rewrite !andb_true_iff in Hv.
    destruct Hv as [[_ H1] H2].
    destruct (m =? 2); [destruct (leap y)|]; [lia | lia |].
    destruct ((m =? 4) || (m =? 6) || (m =? 9) || (m =? 11))%bool; lia. }
  pose proof (zrange_forallb _ _ _ next_ok_true y Hy) as H1.
  pose proof (zrange_forallb _ _ _ H1 m Hm) as H2.
  pose proof (zrange_forallb _ _ _ H2 d Hd) as H3.
  cbv beta in H3; unfold next_ok in H3.
  destruct (next_day y m d) as [[y' m'] d'].
  apply Z.eqb_eq.
  apply (implb_true _ _ H3).
  rewrite Hv, Hw, Hw'; reflexivity.
Qed.

Lemma fnday_next_day_witness :
  fnday 2020 3 1 = fnday 2020 2 29 + 1.
Proof.
  apply (fnday_next_day 2020 2 29); reflexivity.
Defined.

End TimeMore.

(** ** class P13Observer *)

Module ObserverFacts.
Import CR CRFacts Const P13Observer.
Local Open Scope R_scope.

Lemma cos2_sin2 (x : R) : cos x * cos x + sin x * sin x = 1.
Proof. pose proof (sin2_cos2 x) as H; unfold Rsqr in H; lra. Qed.

Lemma frame_dots (p_dlat p_dlon p_dasl : R) :
  let o := new p_dlat p_dlon p_dasl in
  dot (c_vecU o) (c_vecU o) = 1 /\ dot (c_vecE o) (c_vecE o) = 1
  /\ dot (c_vecN o) (c_vecN o) = 1 /\ dot (c_vecU o) (c_vecE o) = 0
  /\ dot (c_vecU o) (c_vecN o) = 0 /\ dot (c_vecE o) (c_vecN o) = 0.
Proof.
  unfold new, dot; cbn [c_vecU c_vecE c_vecN v0 v1 v2].
  pose proof (cos2_sin2 (radians p_dlat)) as Hl.
  pose proof (cos2_sin2 (radians p_dlon)) as Ho.
  generalize dependent (cos (radians p_dlat)); intros cl.
  generalize dependent (sin (radians p_dlat)); intros sl.
  generalize dependent (cos (radians p_dlon)); intros co.
  generalize dependent (sin (radians p_dlon)); intros so Ho Hl.
  replace 0.0 with 0 by lra.
  repeat split; nsatz.
Qed.

(** The constructor builds an orthonormal, right-handed frame East, North,
    Up (East x North = Up), whatever the latitude and longitude. *)
Theorem frame_orthonormal (p_dlat p_dlon p_dasl : R) :
  let o := new p_dlat p_dlon p_dasl in
  (dot (c_vecU o) (c_vecU o) = 1 /\ dot (c_vecE o) (c_vecE o) = 1
   /\ dot (c_vecN o) (c_vecN o) = 1 /\ dot (c_vecU o) (c_vecE o) = 0
   /\ dot (c_vecU o) (c_vecN o) = 0 /\ dot (c_vecE o) (c_vecN o) = 0)
  /\ (v1 (c_vecE o) * v2 (c_vecN o) - v2 (c_vecE o) * v1 (c_vecN o)
      = v0 (c_vecU o)
      /\ v2 (c_vecE o) * v0 (c_vecN o) - v0 (c_vecE o) * v2 (c_vecN o)
         = v1 (c_vecU o)
      /\ v0 (c_vecE o) * v1 (c_vecN o) - v1 (c_vecE o) * v0 (c_vecN o)
         = v2 (c_vecU o)).
Proof.
  split; [exact (frame_dots p_dlat p_dlon p_dasl)|].
  unfold new; cbn [c_vecU c_vecE c_vecN v0 v1 v2].
  pose proof (cos2_sin2 (radians p_dlon)) as Ho.
  generalize dependent (cos (radians p_dlat)); intros cl.
  generalize dependent (sin (radians p_dlat)); intros sl.
  generalize dependent (cos (radians p_dlon)); intros co.
  generalize dependent (sin (radians p_dlon)); intros so Ho.
  replace 0.0 with 0 by lra.
  repeat split; nsatz.
Qed.

(** The station's velocity is horizontal to the equator plane and
    perpendicular to its position: a rotation about the polar axis. *)
Theorem velocity_is_rotation (p_dlat p_dlon p_dasl : R) :
  let o := new p_dlat p_dlon p_dasl in
  v2 (c_vecV o) = 0 /\ dot (c_vecV o) (c_vecO o) = 0
  /\ dot (c_vecV o) (c_vecV o)
     = g_scdW0 * g_scdW0
       * (v0 (c_vecO o) * v0 (c_vecO o) + v1 (c_vecO o) * v1 (c_vecO o)).
Proof.
  unfold new, dot; cbn [c_vecV c_vecO v0 v1 v2].
  replace 0.0 with 0 by lra.
  split; [reflexivity|]. split; ring.
Qed.

Lemma polar_radius_positive : 0 < g_scdRP.
Proof. unfold g_scdRP, g_scdRE, g_scdFL; lra. Qed.

(** The radicand of the constructor's square root is positive. *)
Lemma curvature_positive (cl sl : R) :
  cl * cl + sl * sl = 1 ->
  0 < g_scdRE * g_scdRE * cl * cl + g_scdRP * g_scdRP * sl * sl.
Proof.
  intros H. pose proof polar_radius_positive as HP.
  assert (HE : 0 < g_scdRE) by (unfold g_scdRE; lra).
  assert (H1 : 0 < g_scdRE * g_scdRE) by nra.
  assert (H2 : 0 < g_scdRP * g_scdRP) by nra.
  assert (Hc : 0 <= cl * cl) by nra.
  assert (Hs : 0 <= sl * sl) by nra.
  destruct (Rle_lt_dec (cl * cl) (1 / 2)) as [Hh|Hh]; nra.
Qed.

(** At sea level the station lies on the WGS-84 ellipsoid of semi-axes
    RE and RP. *)
Theorem sea_level_on_ellipsoid (p_dlat p_dlon : R) :
  let o := new p_dlat p_dlon 0 in
  (v0 (c_vecO o) * v0 (c_vecO o) + v1 (c_vecO o) * v1 (c_vecO o))
  / (g_scdRE * g_scdRE)
  + v2 (c_vecO o) * v2 (c_vecO o) / (g_scdRP * g_scdRP) = 1.
Proof.
  unfold new; cbn [c_vecO c_vecU v0 v1 v2].
  pose proof (cos2_sin2 (radians p_dlat)) as Hl.
  pose proof (cos2_sin2 (radians p_dlon)) as Ho.
  pose proof (curvature_positive _ _ Hl) as HD.
  pose proof polar_radius_positive as HP.
  assert (HE : 0 < g_scdRE) by (unfold g_scdRE; lra).
  set (D := sqrt _).
  assert (HD0 : 0 < D) by (apply sqrt_lt_R0; exact HD).
  assert (HDD : D * D = g_scdRE * g_scdRE * cos (radians p_dlat)
                        * cos (radians p_dlat)
                        + g_scdRP * g_scdRP * sin (radians p_dlat)
                          * sin (radians p_dlat)).
  { apply sqrt_sqrt; lra. }
  clearbody D.
  generalize dependent (cos (radians p_dlat)); intros cl.
  generalize dependent (sin (radians p_dlat)); intros sl.
  generalize dependent (cos (radians p_dlon)); intros co.
  generalize dependent (sin (radians p_dlon)); intros so Ho Hl HD HDD.
  replace (0 / 1000.0) with 0 by lra.
  rewrite !Rplus_0_r.
  apply Rmult_eq_reg_r with (D * D); [|nra].
  replace (((g_scdRE * g_scdRE / D * (cl * co)
             * (g_scdRE * g_scdRE / D * (cl * co))
             + g_scdRE * g_scdRE / D * (cl * so)
               * (g_scdRE * g_scdRE / D * (cl * so)))
            / (g_scdRE * g_scdRE)
            + g_scdRP * g_scdRP / D * sl * (g_scdRP * g_scdRP / D * sl)
              / (g_scdRP * g_scdRP)) * (D * D))
    with (g_scdRE * g_scdRE * (cl * cl) * (co * co + so * so)
          + g_scdRP * g_scdRP * (sl * sl)) by (field; lra).
  rewrite Ho, HDD; ring.
Qed.

(** The altitude, given in metres, is added in kilometres along Up. *)
Theorem altitude_along_up (p_dlat p_dlon p_dasl : R) :
  let o := new p_dlat p_dlon p_dasl in
  let o0 := new p_dlat p_dlon 0 in
  c_vecU o = c_vecU o0
  /\ v0 (c_vecO o) = v0 (c_vecO o0) + p_dasl / 1000 * v0 (c_vecU o)
  /\ v1 (c_vecO o) = v1 (c_vecO o0) + p_dasl / 1000 * v1 (c_vecU o)
  /\ v2 (c_vecO o) = v2 (c_vecO o0) + p_dasl / 1000 * v2 (c_vecU o).
Proof.
  unfold new; cbn [c_vecO c_vecU v0 v1 v2].
  split; [reflexivity|].
  replace (0 / 1000.0) with 0 by lra.
  replace (p_dasl / 1000.0) with (p_dasl / 1000) by lra.
  repeat split; ring.
Qed.

End ObserverFacts.

(** ** elaz: directions and range rate *)

Module LookMore.
Import CR CRFacts Const ObserverFacts.
Local Open Scope R_scope.









(** The range rate that [elaz] caches is the relative velocity resolved
    along the line of sight: its magnitude never exceeds the relative
    speed. *)
Theorem range_rate_bound (s : P13Satellite.state) (o : P13Observer.t) :
  P13Satellite.range_vec s o <> vec 0 0 0 ->
  let '(_, _, s') := P13Satellite.elaz s o in
  P13Satellite.cp_dRR s' * P13Satellite.cp_dRR s'
  <= norm2 (vec (v0 (P13Satellite.c_vecV s) - v0 (P13Observer.c_vecV o))
                (v1 (P13Satellite.c_vecV s) - v1 (P13Observer.c_vecV o))
                (v2 (P13Satellite.c_vecV s))).
Proof.
  intros Hr.
  pose proof (LookFacts.norm2_pos _ Hr) as Hn; unfold norm2 in Hn.
  unfold P13Satellite.elaz, Look.components;
    cbn [P13Satellite.cp_dRR Look.l_vecR v0 v1 v2].
  set (r := P13Satellite.range_vec s o) in *.
  unfold norm2; cbn [v0 v1 v2].
  set (a := v0 (P13Satellite.c_vecV s) - v0 (P13Observer.c_vecV o)).
  set (b := v1 (P13Satellite.c_vecV s) - v1 (P13Observer.c_vecV o)).
  set (c := v2 (P13Satellite.c_vecV s)).
  set (d := sqrt _).
  assert (Hd : 0 < d) by (apply sqrt_lt_R0; exact Hn).
  assert (Hdd : d * d = v0 r * v0 r + v1 r * v1 r + v2 r * v2 r)
    by (apply sqrt_sqrt; lra).
  pose proof (LookFacts.dot_square_le a b c (v0 r) (v1 r) (v2 r)) as CS.
  rewrite <- Hdd in CS.
  clearbody a b c d.
  replace (a * (v0 r / d) + b * (v1 r / d) + c * (v2 r / d))
    with ((a * v0 r + b * v1 r + c * v2 r) / d) by (field; lra).
  generalize dependent (a * v0 r + b * v1 r + c * v2 r); intros p CS.
  generalize dependent (a * a + b * b + c * c); intros q CS.
  apply Rmult_le_reg_r with (d * d); [nra|].
  replace (p / d * (p / d) * (d * d)) with (p * p) by (field; lra).
  exact CS.
Qed.

Lemma range_rate_bound_witness :
  let '(_, _, s') :=
    P13Satellite.elaz Examples.over_pole (P13Observer.new 0 0 0) in
  P13Satellite.cp_dRR s' * P13Satellite.cp_dRR s'
  <= norm2 (vec (v0 (P13Satellite.c_vecV Examples.over_pole)
                 - v0 (P13Observer.c_vecV (P13Observer.new 0 0 0)))
                (v1 (P13Satellite.c_vecV Examples.over_pole)
                 - v1 (P13Observer.c_vecV (P13Observer.new 0 0 0)))
                (v2 (P13Satellite.c_vecV Examples.over_pole))).
Proof.
  apply (range_rate_bound Examples.over_pole (P13Observer.new 0 0 0)).
  intros E; apply (f_equal v2) in E; simpl in E.
  rewrite LookFacts.sin_radians_0 in E; lra.
Defined.

End LookMore.

(** ** Sub-points: the two latlon methods *)

Module SubPoint.
Import CR CRFacts Const.
Local Open Scope R_scope.

Lemma asin_le (a b : R) : -1 <= a -> a <= b -> b <= 1 -> asin a <= asin b.
Proof.
  intros Ha Hab Hb.
  destruct (asin_bound a) as [Ha0 Ha1]; destruct (asin_bound b) as [Hb0 Hb1].
  apply sin_incr_0; try assumption.
  rewrite !sin_asin by lra. exact Hab.
Qed.

Lemma degrees_radians (x : R) : degrees (radians x) = x.
Proof. pose proof PI_RGT_0; unfold degrees, radians; field; lra. Qed.

(** An angle whose sine is at most [sin i] in magnitude, for [i] between 0
    and a right angle, lies between [-i] and [i] after [asin]. *)
Lemma asin_within (z i : R) :
  0 <= i <= PI / 2 -> - sin i <= z <= sin i -> - i <= asin z <= i.
Proof.
  intros Hi Hz.
  pose proof PI_RGT_0 as Hpi.
  assert (Hs : sin i <= 1) by (destruct (SIN_bound i); lra).
  assert (Hs0 : 0 <= sin i) by (apply sin_ge_0; lra).
  assert (E : asin (sin i) = i) by (apply asin_sin; lra).
  assert (Hlo : asin (- sin i) <= asin z) by (apply asin_le; lra).
  assert (Hhi : asin z <= asin (sin i)) by (apply asin_le; lra).
  rewrite asin_opp in Hlo. lra.
Qed.

Lemma obliquity_range : 0 <= g_scdINS <= PI / 2.
Proof.
  pose proof PI_RGT_0; unfold g_scdINS, radians; split; lra.
Qed.

(** The Sun's vectors are unit vectors, and the sub-solar point that
    [latlon] reports has a latitude within 23.4375 degrees of the equator
    and a longitude in (-180, 180]. *)
Theorem sun_subpoint (p_dt : P13DateTime.t) :
  let s := P13Sun.predict p_dt in
  norm2 (P13Sun.c_vecSUN s) = 1 /\ norm2 (P13Sun.c_vecH s) = 1
  /\ -23.4375 <= fst (P13Sun.latlon s) <= 23.4375
  /\ -180 < snd (P13Sun.latlon s) <= 180.
Proof.
  cbv zeta.
  assert (HSUN : norm2 (P13Sun.c_vecSUN (P13Sun.predict p_dt)) = 1).
  { unfold P13Sun.predict, norm2; cbn [P13Sun.c_vecSUN v0 v1 v2].
    unfold g_scdCNS, g_scdSNS.
    pose proof (ObserverFacts.cos2_sin2 g_scdINS) as H1.
    match goal with |- context [cos ?x * cos ?x] =>
      pose proof (ObserverFacts.cos2_sin2 x) as H2;
      generalize dependent (cos x); generalize dependent (sin x) end.
    generalize dependent (cos g_scdINS); generalize dependent (sin g_scdINS).
    intros; nsatz. }
  split; [exact HSUN|]. split.
  { unfold P13Sun.predict, norm2 in *;
      cbn [P13Sun.c_vecSUN P13Sun.c_vecH v0 v1 v2] in *.
    rewrite <- HSUN.
    match goal with |- context [cos (- ?g)] =>
      pose proof (ObserverFacts.cos2_sin2 (- g)) as HG;
      generalize dependent (cos (- g)); generalize dependent (sin (- g)) end.
    intros; nsatz. }
  unfold P13Sun.latlon; cbn [fst snd]. split.
  - unfold P13Sun.predict; cbn [P13Sun.c_vecH v2].
    match goal with |- context [sin ?x * g_scdSNS] =>
      pose proof (SIN_bound x) as HS; set (S := sin x) in * end.
    pose proof obliquity_range as HI.
    assert (Hs0 : 0 <= sin g_scdINS) by (apply sin_ge_0; lra).
    assert (Hz : - sin g_scdINS <= S * g_scdSNS <= sin g_scdINS)
      by (unfold g_scdSNS; nra).
    destruct (asin_within _ _ HI Hz) as [Hlo Hhi].
    apply degrees_le in Hlo; apply degrees_le in Hhi.
    rewrite degrees_opp in Hlo.
    unfold g_scdINS in Hlo, Hhi; rewrite degrees_radians in Hlo, Hhi.
    lra.
  - match goal with |- context [atan2 ?y ?x] =>
      destruct (atan2_bounds y x) as [Hlo Hhi] end.
    apply degrees_lt in Hlo; apply degrees_le in Hhi.
    rewrite degrees_opp, degrees_PI in Hlo; rewrite degrees_PI in Hhi.
    lra.
Qed.

Lemma ratio_within (z r c : R) :
  z * z <= c * c * (r * r) -> 0 <= c -> r <> 0 -> - c <= z / r <= c.
Proof.
  intros Hz Hc Hr.
  assert (Hrr : 0 < r * r) by (destruct (Rdichotomy _ _ Hr); nra).
  assert (Hq : z / r * (z / r) <= c * c).
  { apply Rmult_le_reg_r with (r * r); [exact Hrr|].
    replace (z / r * (z / r) * (r * r)) with (z * z) by (field; exact Hr).
    exact Hz. }
  generalize dependent (z / r); intros q Hq. nra.
Qed.

(** The polar component of the position is at most the radius times the
    sine of the inclination. *)
Lemma polar_component (e : P13Satellite.elements) (a : P13Satellite.anomaly)
    (k : P13Satellite.kepler) (old : P13Satellite.state) :
  P13Satellite.cp_dB_0 e * P13Satellite.cp_dB_0 e
  = P13Satellite.cp_dA_0 e * P13Satellite.cp_dA_0 e
    * (1 - P13Satellite.cp_dEC e * P13Satellite.cp_dEC e) ->
  P13Satellite.l_dC_EA k * P13Satellite.l_dC_EA k
  + P13Satellite.l_dS_EA k * P13Satellite.l_dS_EA k = 1 ->
  P13Satellite.l_dDNOM k
  = 1 - P13Satellite.cp_dEC e * P13Satellite.l_dC_EA k ->
  v2 (P13Satellite.c_vecS (P13Satellite.predict_vectors e a k old))
  * v2 (P13Satellite.c_vecS (P13Satellite.predict_vectors e a k old))
  <= sin (P13Satellite.cp_dIN e) * sin (P13Satellite.cp_dIN e)
     * (P13Satellite.cp_dRS (P13Satellite.predict_vectors e a k old)
        * P13Satellite.cp_dRS (P13Satellite.predict_vectors e a k old)).
Proof.
  intros HB HT HD.
  unfold P13Satellite.predict_vectors;
    cbn [P13Satellite.c_vecS P13Satellite.cp_dRS v0 v1 v2].
  rewrite HD.
  rewrite <- (PredictFacts.ellipse_radius2
                (P13Satellite.cp_dA_0 e * P13Satellite.l_dKD a)
                (P13Satellite.cp_dB_0 e * P13Satellite.l_dKD a)
                (P13Satellite.cp_dEC e)
                (P13Satellite.l_dC_EA k) (P13Satellite.l_dS_EA k));
    [| nsatz | exact HT].
  match goal with |- context [sin ?w * sin (P13Satellite.cp_dIN e)] =>
    pose proof (PredictFacts.trig_one w) as HW;
    generalize dependent (cos w); generalize dependent (sin w) end.
  intros SW CW HW.
  generalize (P13Satellite.cp_dA_0 e * P13Satellite.l_dKD a
              * (P13Satellite.l_dC_EA k - P13Satellite.cp_dEC e)).
  generalize (P13Satellite.cp_dB_0 e * P13Satellite.l_dKD a
              * P13Satellite.l_dS_EA k).
  generalize (sin (P13Satellite.cp_dIN e)).
  intros SI y x.
  pose proof (LookFacts.dot_square_le x y 0 SW CW 0) as CS.
  replace (SW * SW + CW * CW + 0 * 0) with 1 in CS by lra.
  replace ((x * (SW * SI) + y * (CW * SI)) * (x * (SW * SI) + y * (CW * SI)))
    with (SI * SI * ((x * SW + y * CW + 0 * 0) * (x * SW + y * CW + 0 * 0)))
    by ring.
  apply Rmult_le_compat_l; [nra|]. lra.
Qed.

(** The sub-satellite point.  For an element set of eccentricity in [0,1)
    and inclination between 0 and 90 degrees, after any [predict] that
    leaves a radius other than zero, the latitude that [latlon] reports
    never exceeds the inclination in magnitude, and the longitude lies in
    (-180, 180]. *)
Theorem satellite_subpoint (fuel : nat) (f : P13Satellite.tle_fields)
    (old : P13Satellite.state) (p_dt : P13DateTime.t)
    (s : P13Satellite.state) :
  0 <= P13Satellite.cp_dEC (P13Satellite.tle f) < 1 ->
  0 <= P13Satellite.f_IN f <= 90 ->
  P13Satellite.predict fuel (P13Satellite.tle f) old p_dt = Some s ->
  P13Satellite.cp_dRS s <> 0 ->
  - P13Satellite.f_IN f <= fst (P13Satellite.latlon s) <= P13Satellite.f_IN f
  /\ -180 < snd (P13Satellite.latlon s) <= 180.
Proof.
  intros He Hin Hp Hnz.
  pose proof PI_RGT_0 as Hpi.
  unfold P13Satellite.latlon; cbn [fst snd]. split.
  - destruct (PredictFacts.predict_inv _ _ _ _ _ Hp) as (k & Hk & Es).
    destruct (KeplerFacts.kepler_loop_exit _ _ _ _ _ Hk)
      as (_ & HC & HS & HD).
    destruct (PredictFacts.tle_semi_axes f He) as [_ HB].
    assert (HT : P13Satellite.l_dC_EA k * P13Satellite.l_dC_EA k
                 + P13Satellite.l_dS_EA k * P13Satellite.l_dS_EA k = 1)
      by (rewrite HC, HS; apply PredictFacts.trig_one).
    assert (HD' : P13Satellite.l_dDNOM k
                  = 1 - P13Satellite.cp_dEC (P13Satellite.tle f)
                        * P13Satellite.l_dC_EA k)
      by (rewrite HD, HC; reflexivity).
    pose proof (polar_component _ (P13Satellite.predict_anomaly
                                     (P13Satellite.tle f) p_dt)
                  k old HB HT HD') as Hpol.
    rewrite <- Es in Hpol.
    assert (HI : 0 <= P13Satellite.cp_dIN (P13Satellite.tle f) <= PI / 2).
    { unfold P13Satellite.tle; cbn [P13Satellite.cp_dIN].
      unfold radians; split; nra. }
    assert (Hs0 : 0 <= sin (P13Satellite.cp_dIN (P13Satellite.tle f)))
      by (apply sin_ge_0; lra).
    pose proof (ratio_within _ _ _ Hpol Hs0 Hnz) as Hz.
    destruct (asin_within _ _ HI Hz) as [Hlo Hhi].
    apply degrees_le in Hlo; apply degrees_le in Hhi.
    rewrite degrees_opp in Hlo.
    assert (EI : degrees (P13Satellite.cp_dIN (P13Satellite.tle f))
                 = P13Satellite.f_IN f).
    { unfold P13Satellite.tle; cbn [P13Satellite.cp_dIN].
      apply degrees_radians. }
    rewrite EI in Hlo, Hhi. lra.
  - match goal with |- context [atan2 ?y ?x] =>
      destruct (atan2_bounds y x) as [Hlo Hhi] end.
    apply degrees_lt in Hlo; apply degrees_le in Hhi.
    rewrite degrees_opp, degrees_PI in Hlo; rewrite degrees_PI in Hhi.
    lra.
Qed.

Lemma two_revs_drag_factor (p_dt : P13DateTime.t) :
  P13Satellite.l_dKD
    (P13Satellite.predict_anomaly (P13Satellite.tle Examples.two_revs) p_dt)
  = 1.
Proof.
  destruct BeforeEpoch.two_revs_elements as (_ & _ & _ & _ & HDC & _).
  cbv zeta in HDC.
  unfold P13Satellite.predict_anomaly; cbn [P13Satellite.l_dKD].
  rewrite HDC; lra.
Qed.

Lemma satellite_subpoint_witness :
  exists s : P13Satellite.state,
    P13Satellite.predict 1 (P13Satellite.tle Examples.two_revs)
                         Examples.fresh Examples.at_epoch = Some s
    /\ (- P13Satellite.f_IN Examples.two_revs
        <= fst (P13Satellite.latlon s) <= P13Satellite.f_IN Examples.two_revs
        /\ -180 < snd (P13Satellite.latlon s) <= 180).
Proof.
  assert (He : 0 <= P13Satellite.cp_dEC (P13Satellite.tle Examples.two_revs)
               < 1)
    by (rewrite PredictFacts.two_revs_circular; lra).
  destruct (PredictFacts.predict_circular
              0 (P13Satellite.tle Examples.two_revs) Examples.fresh
              Examples.at_epoch PredictFacts.two_revs_circular) as [s Hs].
  exists s; split; [exact Hs|].
  apply (satellite_subpoint 1 Examples.two_revs Examples.fresh
           Examples.at_epoch s He).
  - simpl; lra.
  - exact Hs.
  - destruct (PredictFacts.radius_sign _ _ _ _ _ He Hs) as (c & Hc & Ec).
    rewrite two_revs_drag_factor in Ec. lra.
Defined.

End SubPoint.

(** ** The Newton loop, the element set and the mean anomaly *)

Module OrbitMore.
Import CR CRFacts Const P13Satellite.
Local Open Scope R_scope.

(** What the loop returns solves Kepler's equation up to the tolerance:
    at the anomaly E' where the last pass took sine and cosine, the
    residual E' - e sin E' - M is at most 1.0E-5 (1 + e) in magnitude, and
    the returned anomaly is within 1.0E-5 of E'. *)
Theorem kepler_residual (fuel : nat) (ec M EA : R) (k : kepler) :
  0 <= ec < 1 ->
  kepler_loop fuel ec M EA = Some k ->
  Rabs ((l_dEA k + l_dD k) - ec * sin (l_dEA k + l_dD k) - M)
  <= 1.0E-5 * (1 + ec)
  /\ Rabs (l_dEA k - (l_dEA k + l_dD k)) <= 1.0E-5.
Proof.
  intros He; revert EA; induction fuel as [|fuel IH]; intros EA;
    simpl; [discriminate|].
  destruct (Rgt_dec _ _) as [Hgt|Hle]; [apply IH|].
  intros E; injection E as <-; cbn [l_dEA l_dD].
  set (den := 1.0 - ec * cos EA) in *.
  set (res := EA - ec * sin EA - M) in *.
  assert (Hden : 0 < den <= 1 + ec).
  { unfold den; pose proof (COS_bound EA) as [Hc0 Hc1]; split; nra. }
  assert (HD : Rabs (res / den) <= 1.0E-5) by (unfold fabs in Hle; lra).
  replace (EA - res / den + res / den) with EA by ring.
  fold res. split.
  - replace res with (res / den * den) by (field; lra).
    rewrite Rabs_mult, (Rabs_pos_eq den) by lra.
    pose proof (Rabs_pos (res / den)) as Hp.
    apply Rmult_le_compat; lra.
  - replace (EA - res / den - EA) with (- (res / den)) by ring.
    rewrite Rabs_Ropp; exact HD.
Qed.

Lemma kepler_residual_witness :
  let k := mk_kepler 1 (cos 1) (sin 1) 1 0 in
  Rabs ((l_dEA k + l_dD k) - 0 * sin (l_dEA k + l_dD k) - 1)
  <= 1.0E-5 * (1 + 0)
  /\ Rabs (l_dEA k - (l_dEA k + l_dD k)) <= 1.0E-5.
Proof.
  intros k. apply (kepler_residual 1 0 1 1 k); [lra|].
  apply KeplerFacts.kepler_loop_circular.
Defined.

(** At perigee, at apogee and at every whole multiple of PI the mean and
    the eccentric anomaly coincide: for every eccentricity below 1 the
    loop started there leaves after its first pass with the anomaly
    unchanged. *)
Theorem kepler_at_apsides (fuel : nat) (ec : R) (n : Z) :
  0 <= ec < 1 ->
  exists k : kepler,
    kepler_loop (S fuel) ec (IZR n * PI) (IZR n * PI) = Some k
    /\ l_dEA k = IZR n * PI /\ l_dD k = 0.
Proof.
  intros He; cbn [kepler_loop].
  assert (Hs : sin (IZR n * PI) = 0) by (apply sin_eq_0_1; exists n; reflexivity).
  rewrite Hs.
  pose proof (denominator_pos := PredictFacts.denominator_positive
                                   ec (IZR n * PI) He).
  assert (ED : (IZR n * PI - ec * 0 - IZR n * PI)
               / (1.0 - ec * cos (IZR n * PI)) = 0).
  { unfold Rdiv. replace (IZR n * PI - ec * 0 - IZR n * PI) with 0 by ring.
    apply Rmult_0_l. }
  rewrite ED.
  destruct (Rgt_dec (fabs 0) 1.0E-5) as [Hgt|_].
  - unfold fabs in Hgt; rewrite Rabs_R0 in Hgt; lra.
  - eexists; split; [reflexivity|]. cbn [l_dEA l_dD]. split; ring.
Qed.

Lemma kepler_at_apsides_witness :
  exists k : kepler,
    kepler_loop 1 (1 / 2) (IZR 1 * PI) (IZR 1 * PI) = Some k
    /\ l_dEA k = IZR 1 * PI /\ l_dD k = 0.
Proof. apply (kepler_at_apsides 0 (1 / 2) 1); lra. Defined.

(** The two-digit epoch year is read with the pivot 58: the years 58..99
    are 1958..1999 and the years 0..57 are 2000..2057. *)
Theorem epoch_year_pivot (f : tle_fields) :
  (0 <= f_YE f <= 99)%Z ->
  (1958 <= cp_lYE (tle f) <= 2057)%Z
  /\ (cp_lYE (tle f) mod 100 = f_YE f)%Z.
Proof.
  intros Hy; unfold tle; cbn [cp_lYE].
  destruct (Z.ltb_spec (f_YE f) 58); split; try lia;
    Z.div_mod_to_equations; lia.
Qed.

Lemma epoch_year_pivot_witness :
  (1958 <= cp_lYE (tle Examples.two_revs) <= 2057)%Z
  /\ (cp_lYE (tle Examples.two_revs) mod 100 = f_YE Examples.two_revs)%Z.
Proof. apply (epoch_year_pivot Examples.two_revs); simpl; lia. Defined.

(** The epoch is split into a day number and a fraction in [0,1) that
    add up to the day number of January 0 of the epoch year plus the day
    of the year read from the element set. *)
Theorem epoch_split (f : tle_fields) :
  0 <= f_TE f ->
  0 <= cp_dTE (tle f) < 1
  /\ IZR (cp_lDE (tle f)) + cp_dTE (tle f)
     = IZR (Helper.fnday (cp_lYE (tle f)) 1 0) + f_TE f.
Proof.
  intros Ht; unfold tle; cbn [cp_dTE cp_lDE cp_lYE].
  destruct (AnomalyFacts.cast_bounds_nonneg _ Ht) as [Hlo Hhi].
  unfold of_long; rewrite plus_IZR. split; lra.
Qed.

Lemma epoch_split_witness :
  0 <= cp_dTE (tle Examples.two_revs) < 1
  /\ IZR (cp_lDE (tle Examples.two_revs)) + cp_dTE (tle Examples.two_revs)
     = IZR (Helper.fnday (cp_lYE (tle Examples.two_revs)) 1 0)
       + f_TE Examples.two_revs.
Proof. apply (epoch_split Examples.two_revs); simpl; lra. Defined.

(** Kepler's third law at the epoch: for a mean motion other than zero
    the cube of the semi-major axis times the square of the mean motion in
    radians per second is GM, and the semi-minor axis is the semi-major one
    times sqrt(1 - e^2). *)
Theorem third_law (f : tle_fields) :
  f_MM f <> 0 ->
  cp_dA_0 (tle f) * cp_dA_0 (tle f) * cp_dA_0 (tle f)
  * (cp_dN0 (tle f) * cp_dN0 (tle f)) = g_scdGM
  /\ cp_dN0 (tle f) = 2 * PI * f_MM f / 86400
  /\ cp_dB_0 (tle f)
     = cp_dA_0 (tle f) * sqrt (1 - cp_dEC (tle f) * cp_dEC (tle f)).
Proof.
  intros HMM; pose proof PI_RGT_0 as Hpi.
  unfold tle; cbn [cp_dA_0 cp_dN0 cp_dB_0 cp_dEC].
  set (n0 := 2.0 * PI * f_MM f / 86400.0).
  assert (Hn0 : n0 <> 0).
  { unfold n0; intros E.
    assert (E' : PI * f_MM f = 0) by lra.
    apply Rmult_integral in E'; destruct E'; [lra | contradiction]. }
  assert (Hnn : 0 < n0 * n0) by (destruct (Rdichotomy _ _ Hn0); nra).
  assert (Hx : 0 < g_scdGM / (n0 * n0)).
  { apply Rdiv_lt_0_compat; [unfold g_scdGM; lra | exact Hnn]. }
  split; [|split].
  - unfold pow. rewrite <- !Rpower_plus.
    replace (1.0 / 3.0 + 1.0 / 3.0 + 1.0 / 3.0) with 1 by lra.
    rewrite Rpower_1 by exact Hx. field; lra.
  - unfold n0; lra.
  - replace (1.0 - f_EC f / 1.0E7 * (f_EC f / 1.0E7))
      with (1 - f_EC f / 1.0E7 * (f_EC f / 1.0E7)) by lra.
    reflexivity.
Qed.

Lemma third_law_witness :
  cp_dA_0 (tle Examples.two_revs) * cp_dA_0 (tle Examples.two_revs)
  * cp_dA_0 (tle Examples.two_revs)
  * (cp_dN0 (tle Examples.two_revs) * cp_dN0 (tle Examples.two_revs))
  = g_scdGM.
Proof. apply (third_law Examples.two_revs); simpl; lra. Defined.

(** The reduction of the mean anomaly, when the mean anomaly is not
    negative (at and after the epoch of an orbit that is not extrapolated
    beyond its decay): a whole number n >= 0 of revolutions is stripped,
    the result lies in [0, 2 PI) and the orbit number is the revolution
    number at the epoch plus n. *)
Theorem mean_anomaly_reduced (e : elements) (p_dt : P13DateTime.t) :
  let a := predict_anomaly e p_dt in
  0 <= cp_dMA e + cp_dMM e * l_dT a * (1.0 - 3.0 * l_dDT a) ->
  0 <= l_dM a < 2 * PI
  /\ (exists n : Z,
        (0 <= n)%Z /\ l_dDR a = IZR n
        /\ l_dM a = cp_dMA e + cp_dMM e * l_dT a * (1.0 - 3.0 * l_dDT a)
                    - IZR n * (2 * PI)
        /\ l_dRN a = cp_dRV e + IZR n).
Proof.
  intros a; unfold a, predict_anomaly; cbn [l_dM l_dDR l_dRN l_dT l_dDT].
  set (T := of_long (P13DateTime.c_lDN p_dt - cp_lDE e)
            + (Q2R (P13DateTime.c_dTN p_dt) - cp_dTE e)).
  set (m := cp_dMA e + cp_dMM e * T * (1.0 - 3.0 * (cp_dDC e * T / 2.0))).
  intros Hm; split; [apply AnomalyFacts.strip_revs_nonneg; exact Hm|].
  exists (to_long (m / (2.0 * PI))); unfold of_long.
  pose proof PI_RGT_0 as Hpi.
  assert (Hq : 0 <= m / (2.0 * PI)).
  { apply Rmult_le_pos; [exact Hm|]. apply Rlt_le, Rinv_0_lt_compat; lra. }
  split; [|split; [reflexivity | split; [lra | reflexivity]]].
  destruct (AnomalyFacts.cast_bounds_nonneg _ Hq) as [Hlo Hhi].
  apply le_IZR. 
  destruct (Z_le_gt_dec 0 (to_long (m / (2.0 * PI)))) as [H|H];
    [apply IZR_le; exact H|].
  assert (H' : (to_long (m / (2.0 * PI)) <= -1)%Z) by lia.
  apply IZR_le in H'. lra.
Qed.

(** The same reduction when the mean anomaly is negative (before the
    epoch): the cast rounds toward zero, a whole number n <= 0 of
    revolutions is stripped and the result lies in (-2 PI, 0]. *)
Theorem mean_anomaly_before_epoch (e : elements) (p_dt : P13DateTime.t) :
  let a := predict_anomaly e p_dt in
  cp_dMA e + cp_dMM e * l_dT a * (1.0 - 3.0 * l_dDT a) < 0 ->
  - (2 * PI) < l_dM a <= 0
  /\ (exists n : Z,
        (n <= 0)%Z /\ l_dDR a = IZR n /\ l_dRN a = cp_dRV e + IZR n).
Proof.
  intros a; unfold a, predict_anomaly; cbn [l_dM l_dDR l_dRN l_dT l_dDT].
  set (T := of_long (P13DateTime.c_lDN p_dt - cp_lDE e)
            + (Q2R (P13DateTime.c_dTN p_dt) - cp_dTE e)).
  set (m := cp_dMA e + cp_dMM e * T * (1.0 - 3.0 * (cp_dDC e * T / 2.0))).
  intros Hm; split; [apply AnomalyFacts.strip_revs_neg; exact Hm|].
  exists (to_long (m / (2.0 * PI))); unfold of_long.
  pose proof PI_RGT_0 as Hpi.
  assert (Hq : m / (2.0 * PI) < 0).
  { assert (0 < / (2.0 * PI)) by (apply Rinv_0_lt_compat; lra).
    unfold Rdiv; nra. }
  split; [|split; reflexivity].
  destruct (AnomalyFacts.cast_bounds_neg _ Hq) as [Hlo Hhi].
  destruct (Z_le_gt_dec (to_long (m / (2.0 * PI))) 0) as [H|H];
    [exact H|].
  assert (H' : (1 <= to_long (m / (2.0 * PI)))%Z) by lia.
  apply IZR_le in H'. lra.
Qed.

Lemma at_epoch_elapsed :
  l_dT (predict_anomaly (tle Examples.two_revs) Examples.at_epoch) = 0.
Proof.
  destruct BeforeEpoch.two_revs_elements as (HDE & HTE & _).
  cbv zeta in HDE, HTE.
  assert (HDN : P13DateTime.c_lDN Examples.at_epoch = 735249%Z)
    by (vm_compute; reflexivity).
  assert (HTN : Q2R (P13DateTime.c_dTN Examples.at_epoch) = 0).
  { rewrite (Qeq_eqR _ 0%Q) by (vm_compute; reflexivity).
    unfold Q2R; cbn [Qnum Qden]; lra. }
  unfold predict_anomaly; cbn [l_dT]; rewrite HDE, HTE, HDN, HTN.
  unfold of_long; change (735249 - 735249)%Z with 0%Z; lra.
Qed.

Lemma mean_anomaly_reduced_witness :
  0 <= l_dM (predict_anomaly (tle Examples.two_revs) Examples.at_epoch)
    < 2 * PI.
Proof.
  apply (mean_anomaly_reduced (tle Examples.two_revs) Examples.at_epoch).
  rewrite at_epoch_elapsed.
  destruct BeforeEpoch.two_revs_elements as (_ & _ & HMA & _).
  cbv zeta in HMA; rewrite HMA; lra.
Defined.

Lemma mean_anomaly_before_epoch_witness :
  - (2 * PI)
  < l_dM (predict_anomaly (tle Examples.two_revs) Examples.before_epoch)
  <= 0.
Proof.
  apply (mean_anomaly_before_epoch (tle Examples.two_revs)
           Examples.before_epoch).
  destruct BeforeEpoch.two_revs_elements
    as (HDE & HTE & HMA & HMM & HDC & _).
  cbv zeta in HDE, HTE, HMA, HMM, HDC.
  unfold predict_anomaly; cbn [l_dT l_dDT].
  rewrite HDE, HTE, HMA, HMM, HDC, BeforeEpoch.before_epoch_DN,
    BeforeEpoch.before_epoch_TN.
  unfold of_long; change (735248 - 735249)%Z with (-1)%Z.
  pose proof PI_RGT_0. nra.
Defined.

End OrbitMore.

(** ** Doppler sign, map pixels and footprint arrays *)

Module MapMore.
Import CR CRFacts Const Checks Map Footprint FootprintFacts.
Local Open Scope R_scope.

(** The sign convention of [doppler]: for a positive frequency, a
    receding satellite (positive range rate) is heard below and must be
    called above the nominal frequency; an approaching one the other way
    round. *)
Theorem doppler_sign (s : P13Satellite.state) (f : R) :
  0 < f ->
  (0 < P13Satellite.cp_dRR s ->
   P13Satellite.doppler s f P13Satellite.P13_FRX < f
   /\ f < P13Satellite.doppler s f P13Satellite.P13_FTX)
  /\ (P13Satellite.cp_dRR s < 0 ->
      P13Satellite.doppler s f P13Satellite.P13_FTX < f
      /\ f < P13Satellite.doppler s f P13Satellite.P13_FRX).
Proof.
  intros Hf.
  unfold P13Satellite.doppler, P13Satellite.dopplershift,
    P13Satellite.P13_FRX, P13Satellite.P13_FTX.
  split; intros Hr.
  - assert (H : - f * P13Satellite.cp_dRR s / 299792.0 < 0).
    { unfold Rdiv. apply Rmult_lt_reg_r with 299792.0; [lra|].
      rewrite Rmult_assoc, Rinv_l, Rmult_1_r, Rmult_0_l by lra. nra. }
    lra.
  - assert (H : 0 < - f * P13Satellite.cp_dRR s / 299792.0).
    { unfold Rdiv. apply Rmult_lt_reg_r with 299792.0; [lra|].
      rewrite Rmult_assoc, Rinv_l, Rmult_1_r, Rmult_0_l by lra. nra. }
    lra.
Qed.

Lemma doppler_sign_witness :
  P13Satellite.doppler (Examples.at_rate 1) 145.8 P13Satellite.P13_FRX < 145.8
  /\ 145.8 < P13Satellite.doppler (Examples.at_rate 1) 145.8
                                  P13Satellite.P13_FTX.
Proof.
  destruct (doppler_sign (Examples.at_rate 1) 145.8) as [H _]; [lra|].
  apply H; simpl; lra.
Defined.

(** The cast of a value between 0 and an integer bound. *)
Lemma to_long_between (v : R) (n : Z) :
  0 <= v <= IZR n -> (0 <= to_long v <= n)%Z.
Proof.
  intros [H0 H1].
  destruct (AnomalyFacts.cast_bounds_nonneg v H0) as [Hlo Hhi].
  split.
  - assert (H : (-1 < to_long v)%Z) by (apply lt_IZR; lra). lia.
  - apply le_IZR; lra.
Qed.

Lemma to_long_below (v : R) (n : Z) :
  0 <= v < IZR n -> (to_long v < n)%Z.
Proof.
  intros [H0 H1].
  destruct (AnomalyFacts.cast_bounds_nonneg v H0) as [Hlo Hhi].
  apply lt_IZR; lra.
Qed.


(** A latitude in [-90,90] and a longitude in [-180,180] fall on the map,
    between column 0 and column W and between row 0 and row H; the
    longitude 180 falls on column W and the latitude -90 on row H, one
    past the last column and row of a W x H raster, everything else
    before them. *)
Theorem latlon2xy_in_map (p_dlat p_dlon : R) (W H : Z) :
  (0 <= W)%Z -> (0 <= H)%Z ->
  -90 <= p_dlat <= 90 -> -180 <= p_dlon <= 180 ->
  in_map W H (latlon2xy p_dlat p_dlon W H)
  /\ (p_dlon < 180 -> (0 < W)%Z -> (fst (latlon2xy p_dlat p_dlon W H) < W)%Z)
  /\ (-90 < p_dlat -> (0 < H)%Z -> (snd (latlon2xy p_dlat p_dlon W H) < H)%Z)
  /\ fst (latlon2xy p_dlat 180 W H) = W
  /\ snd (latlon2xy (-90) p_dlon W H) = H.
Proof.
  intros HW HH Hlat Hlon.
  apply IZR_le in HW, HH.
  unfold latlon2xy, of_long; cbn [fst snd].
  assert (Hx : 0 <= (180.0 + p_dlon) / 360.0 * IZR W <= IZR W)
    by (split; [apply Rmult_le_pos; lra | nra]).
  assert (Hy : 0 <= (90.0 - p_dlat) / 180.0 * IZR H <= IZR H)
    by (split; [apply Rmult_le_pos; lra | nra]).
  split; [split; cbn [fst snd]; apply to_long_between; assumption|].
  split; [|split; [|split]].
  - intros Hl HW'; apply IZR_lt in HW'.
    apply to_long_below; split; [tauto | nra].
  - intros Hl HH'; apply IZR_lt in HH'.
    apply to_long_below; split; [tauto | nra].
  - replace ((180.0 + 180) / 360.0 * IZR W) with (IZR W) by lra.
    apply to_long_IZR.
  - replace ((90.0 - -90) / 180.0 * IZR H) with (IZR H) by lra.
    apply to_long_IZR.
Qed.

Lemma latlon2xy_in_map_witness :
  in_map 360 180 (latlon2xy 45 (-90) 360 180).
Proof.
  apply (latlon2xy_in_map 45 (-90) 360 180); try lia; lra.
Defined.





(** An array shorter than the point count: the loop runs past its end (a
    write outside the array, undefined in C). *)
Theorem footprint_overrun (s : P13Satellite.state) (arr : list (Z * Z))
    (N W H : Z) (p_dlat p_dlon : R) :
  (length arr < Z.to_nat N)%nat ->
  P13Satellite.footprint s arr N W H p_dlat p_dlon = None
  /\ P13Sun.footprint arr N W H p_dlat p_dlon = None.
Proof.
  intros Hlen; unfold P13Satellite.footprint, P13Sun.footprint, circle;
    cbv zeta.
  split; apply loop_overruns; simpl; lia.
Qed.

Lemma footprint_overrun_witness :
  P13Sun.footprint [(7, 7)]%Z 2 360 180 0 0 = None.
Proof.
  apply (footprint_overrun Examples.fresh [(7, 7)]%Z 2 360 180 0 0).
  simpl; lia.
Defined.

End MapMore.

(** ** getlong and ascii *)

Module TextFacts.
Import Libc Text Checks.
Local Open Scope Z_scope.

Lemma char_at_app (a b : list Ascii.ascii) (c : Ascii.ascii) :
  char_at (a ++ c :: b) (Z.of_nat (length a)) = Some c.
Proof.
  unfold char_at.
  destruct (Z.ltb_spec (Z.of_nat (length a)) 0) as [H|_]; [lia|].
  rewrite length_app; simpl length.
  destruct (Z.ltb_spec (Z.of_nat (length a))
              (Z.of_nat (length a + S (length b)))) as [_|H]; [|lia].
  rewrite Nat2Z.id, app_nth2, Nat.sub_diag by lia. reflexivity.
Qed.

(** The copy loop over a field that lies inside the string and fits the
    buffer appends the field to the buffer. *)
Lemma copy_field (field : list Ascii.ascii) :
  forall (pre done post buf : list Ascii.ascii),
    Z.of_nat (length done) + Z.of_nat (length field) <= 20 ->
    copy (length field) (Z.of_nat (length done))
         (pre ++ done ++ field ++ post) (Z.of_nat (length pre)) buf
    = Some (buf ++ field,
            Z.of_nat (length done) + Z.of_nat (length field)).
Proof.
  induction field as [|c field IH]; intros pre done post buf Hlen.
  - simpl. rewrite app_nil_r, Z.add_0_r. reflexivity.
  - cbn [copy length].
    replace (Z.of_nat (length pre) + Z.of_nat (length done))
      with (Z.of_nat (length (pre ++ done)))
      by (rewrite length_app; lia).
    replace (pre ++ done ++ (c :: field) ++ post)
      with ((pre ++ done) ++ c :: (field ++ post))
      by (rewrite <- app_assoc; reflexivity).
    rewrite char_at_app.
    simpl length in Hlen.
    destruct (Z.ltb_spec (Z.of_nat (length done)) 20) as [_|H]; [|lia].
    replace ((pre ++ done) ++ c :: field ++ post)
      with (pre ++ (done ++ [c]) ++ field ++ post)
      by (rewrite <- !app_assoc; reflexivity).
    replace (Z.of_nat (length done) + 1)
      with (Z.of_nat (length (done ++ [c])))
      by (rewrite length_app; simpl; lia).
    rewrite IH by (rewrite length_app; simpl; lia).
    rewrite <- app_assoc, length_app; simpl. f_equal; f_equal; lia.
Qed.

(** [getlong] on the columns of a field of fewer than 20 characters
    converts exactly that field. *)
Lemma getlong_field (pre field post : list Ascii.ascii) :
  (length field < 20)%nat ->
  getlong (pre ++ field ++ post) (Z.of_nat (length pre))
          (Z.of_nat (length pre + length field))
  = Some (atol (field ++ [zero])).
Proof.
  intros Hlen; unfold getlong.
  replace (Z.to_nat (Z.of_nat (length pre + length field)
                     - Z.of_nat (length pre)))
    with (length field) by lia.
  pose proof (copy_field field pre [] post [] ltac:(simpl; lia)) as H.
  simpl in H. rewrite H.
  destruct (Z.ltb_spec (Z.of_nat (length field)) 20) as [_|H']; [|lia].
  reflexivity.
Qed.

Lemma skip_spaces_repeat (n : nat) (r : list Ascii.ascii) :
  skip_spaces (repeat " "%char n ++ r) = skip_spaces r.
Proof. induction n as [|n IH]; simpl; [reflexivity | exact IH]. Qed.






Lemma atol_no_number (c : Ascii.ascii) (r : list Ascii.ascii) :
  isdigit c = false -> isspace c = false ->
  c <> "-"%char -> c <> "+"%char ->
  atol (c :: r) = 0.
Proof.
  intros Hd Hs Hm Hp; unfold atol; cbn [skip_spaces]; rewrite Hs.
  assert (E : digits (c :: r) 0 = 0) by (cbn [digits]; rewrite Hd; reflexivity).
  destruct c as [b0 b1 b2 b3 b4 b5 b6 b7].
  destruct b0, b1, b2, b3, b4, b5, b6, b7;
    try exact E;
    try (exfalso; apply Hm; reflexivity);
    try (exfalso; apply Hp; reflexivity).
Qed.

(** A field that does not start, behind its blanks, with a sign or a
    digit is read as 0: a malformed number is not reported. *)
Theorem getlong_malformed (pre post rest : list Ascii.ascii) (pad : nat)
    (c : Ascii.ascii) :
  isdigit c = false -> isspace c = false ->
  c <> "-"%char -> c <> "+"%char ->
  (pad + S (length rest) < 20)%nat ->
  getlong (pre ++ (repeat " "%char pad ++ c :: rest) ++ post)
          (Z.of_nat (length pre))
          (Z.of_nat (length pre + (pad + S (length rest))))
  = Some 0.
Proof.
  intros Hd Hs Hm Hp Hlen.
  pose proof (getlong_field pre (repeat " "%char pad ++ c :: rest) post)
    as H.
  rewrite length_app, repeat_length in H; simpl length in H.
  rewrite H by exact Hlen. f_equal.
  rewrite <- app_assoc.
  assert (E : atol (repeat " "%char pad ++ (c :: rest) ++ [zero])
              = atol ((c :: rest) ++ [zero])).
  { unfold atol; rewrite skip_spaces_repeat; reflexivity. }
  rewrite E. apply atol_no_number; assumption.
Qed.

Lemma getlong_malformed_witness :
  getlong (list_ascii_of_string "1 "
           ++ (repeat " "%char 1 ++ "x"%char :: list_ascii_of_string "544")
           ++ list_ascii_of_string "U 98067A")
          (Z.of_nat 2) (Z.of_nat (2 + (1 + 4)))
  = Some 0.
Proof.
  apply (getlong_malformed (list_ascii_of_string "1 ")
           (list_ascii_of_string "U 98067A")
           (list_ascii_of_string "544") 1 "x"%char);
    try reflexivity; try discriminate.
  simpl; lia.
Defined.

(** A field of 20 columns or more does not fit the buffer of 20 cells
    with its terminator: the copy runs past the end of the buffer or of
    the string. *)
Theorem getlong_too_wide (p_ccc : list Ascii.ascii) (p_ii0 p_ii1 : Z) :
  20 <= p_ii1 - p_ii0 -> getlong p_ccc p_ii0 p_ii1 = None.
Proof.
  intros Hw; unfold getlong.
  assert (H : forall n l_ii buf,
             0 <= l_ii -> 20 <= l_ii + Z.of_nat n ->
             match copy n l_ii p_ccc p_ii0 buf with
             | Some (_, l) => 20 <= l
             | None => True
             end).
  { induction n as [|n IH]; intros l_ii buf H0 H1; cbn [copy].
    - lia.
    - destruct (char_at p_ccc (p_ii0 + l_ii)); [|exact I].
      destruct (Z.ltb_spec l_ii 20); [|exact I].
      apply IH; lia. }
  specialize (H (Z.to_nat (p_ii1 - p_ii0)) 0 [] ltac:(lia) ltac:(lia)).
  destruct (copy _ _ _ _ _) as [[buf l]|]; [|reflexivity].
  destruct (Z.ltb_spec l 20); [lia | reflexivity].
Qed.

Lemma getlong_too_wide_witness :
  getlong (list_ascii_of_string "1 25544U 98067A   08264.51782528")
          0 20 = None.
Proof. apply getlong_too_wide; lia. Defined.

Local Open Scope Q_scope.

(** Hour, minute and second of a normalized fraction are in range. *)
Lemma hms_range (tn : Q) :
  0 <= tn -> tn < 1 ->
  let '(h, mi, s) := hms tn in
  (0 <= h < 24)%Z /\ (0 <= mi < 60)%Z /\ (0 <= s < 60)%Z.
Proof.
  intros H0 H1; unfold hms.
  assert (Hx : 0 <= tn * 24) by lra.
  destruct (CQFacts.to_long_bounds_nonneg _ Hx) as [Ha Hb].
  assert (Hh0 : (0 <= CQ.to_long (tn * 24))%Z).
  { rewrite (CQFacts.to_long_floor _ Hx), <- (Qfloor_Z 0).
    apply Qfloor_resp_le; exact Hx. }
  remember (CQ.to_long (tn * 24)) as h eqn:Eh.
  assert (Hy : 0 <= (tn * 24 - CQ.of_long h) * 60) by lra.
  destruct (CQFacts.to_long_bounds_nonneg _ Hy) as [Hc Hd].
  assert (Hm0 : (0 <= CQ.to_long ((tn * 24 - CQ.of_long h) * 60))%Z).
  { rewrite (CQFacts.to_long_floor _ Hy), <- (Qfloor_Z 0).
    apply Qfloor_resp_le; exact Hy. }
  remember (CQ.to_long ((tn * 24 - CQ.of_long h) * 60)) as mi eqn:Emi.
  assert (Hz : 0 <= ((tn * 24 - CQ.of_long h) * 60 - CQ.of_long mi) * 60)
    by lra.
  destruct (CQFacts.to_long_bounds_nonneg _ Hz) as [He Hf].
  assert (Hs0 : (0 <= CQ.to_long (((tn * 24 - CQ.of_long h) * 60
                                   - CQ.of_long mi) * 60))%Z).
  { rewrite (CQFacts.to_long_floor _ Hz), <- (Qfloor_Z 0).
    apply Qfloor_resp_le; exact Hz. }
  remember (CQ.to_long (((tn * 24 - CQ.of_long h) * 60 - CQ.of_long mi)
                        * 60)) as s eqn:Es.
  unfold CQ.of_long in *.
  repeat split; try assumption;
    rewrite Zlt_Qlt;
    [change (inject_Z 24) with 24 | change (inject_Z 60) with 60
     | change (inject_Z 60) with 60]; lra.
Qed.

Local Open Scope Z_scope.

Lemma fmt_year_ok :
  forallb (fun y => String.eqb (fmt_d 4 y) (four_digits y))
          (zrange 1900 201) = true.
Proof. vm_compute. reflexivity. Qed.

Lemma fmt_two_ok :
  forallb (fun n => String.eqb (fmt_0d 2 n) (two_digits n))
          (zrange 0 60) = true.
Proof. vm_compute. reflexivity. Qed.

Lemma fmt_year (y : Z) : 1900 <= y <= 2100 -> fmt_d 4 y = four_digits y.
Proof.
  intros Hy. apply String.eqb_eq.
  apply (TimeFacts.zrange_forallb _ _ _ fmt_year_ok); lia.
Qed.

Lemma fmt_two (n : Z) : 0 <= n < 60 -> fmt_0d 2 n = two_digits n.
Proof.
  intros Hn. apply String.eqb_eq.
  apply (TimeFacts.zrange_forallb _ _ _ fmt_two_ok); lia.
Qed.

(** For a normalized timestamp whose day number lies in the window of
    [fndate] (1900-03-01 .. 2100-02-28), [ascii] writes the fields of
    [gettime] as YYYY-MM-DD HH:MM:SS, each with its leading zeros: 19
    characters, the constant [ascii_str_len]. *)
Theorem ascii_iso (dt : P13DateTime.t) :
  693670 <= P13DateTime.c_lDN dt <= 766718 ->
  P13DateTime.normalized dt ->
  ascii dt
  = (let '(y, mo, d, h, mi, s) := P13DateTime.gettime dt in
     iso y mo d h mi s)
  /\ String.length (ascii dt) = ascii_str_len.
Proof.
  intros Hn [H0 H1].
  pose proof (TimeMore.daynum_ok_holds _ Hn) as Hd.
  pose proof (hms_range _ H0 H1) as Hh.
  unfold ascii. rewrite TimeFacts.gettime_split.
  unfold daynum_ok in Hd.
  destruct (Helper.fndate (P13DateTime.c_lDN dt)) as [[y mo] d].
  destruct (hms (P13DateTime.c_dTN dt)) as [[h mi] s].
  destruct Hh as (Hh & Hmi & Hs).
  rewrite !andb_true_iff in Hd. destruct Hd as [[Hv Hw] _].
  assert (Hy : 1900 <= y <= 2100).
  { unfold Calendar.in_window, Calendar.date_leb in Hw.
    rewrite !andb_true_iff, !orb_true_iff, !andb_true_iff in Hw. lia. }
  assert (Hmo : 0 <= mo < 60).
  { unfold Calendar.valid_date in Hv. rewrite !andb_true_iff in Hv. lia. }
  assert (Hdd : 0 <= d < 60).
  { unfold Calendar.valid_date, Calendar.days_in_month in Hv.
    rewrite !andb_true_iff in Hv. destruct Hv as [[_ Hv1] Hv2].
    destruct (mo =? 2); [destruct (Calendar.leap y)|]; [lia | lia |].
    destruct ((mo =? 4) || (mo =? 6) || (mo =? 9) || (mo =? 11))%bool; lia. }
  rewrite (fmt_year y Hy), (fmt_two mo Hmo), (fmt_two d Hdd),
    (fmt_two h ltac:(lia)), (fmt_two mi Hmi), (fmt_two s Hs).
  split; reflexivity.
Qed.

Lemma ascii_iso_witness :
  String.length (ascii (P13DateTime.settime 2019 5 11 0 53 13))
  = ascii_str_len.
Proof.
  apply (ascii_iso (P13DateTime.settime 2019 5 11 0 53 13)).
  - vm_compute; split; discriminate.
  - split; vm_compute; [discriminate | reflexivity].
Defined.

End TextFacts.
